(** * spellcheck.py: a shallow embedding and its specification

    The program is one linear pipeline: parse the command line, resolve the
    text (argument or standard input), read the credential from the
    environment, POST one chat-completion request, print the answer.

    The embedding keeps the shape of the Python source.  Python values are an
    inductive type, [str] is a sequence of Unicode code points, dictionaries
    are finite maps, and every effect of the program (environment lookups,
    reading standard input, the HTTP request, writes to the two output
    streams) is recorded in a chronological trace.  Exceptions are values of
    the type [exn]; effectful code lives in the monad [M].

    Code of the Python runtime and of the libraries [argparse], [json] and
    [requests] is not part of the repository: what a library call answers,
    and which characters standard output can encode, is supplied by the
    [World] the program runs in. *)

From Stdlib Require Import ZArith NArith List String Ascii Bool Lia.
From Stdlib Require Import PrimFloat DecimalString.
From stdpp Require Import gmap list.
Import ListNotations.

#[local] Set Warnings "-register-all".
#[local] Open Scope Z_scope.

(** ** Python runtime fragments *)

Module Py.

(** A Python [str] is a sequence of Unicode code points. *)
Abbreviation str := (list N).

(** Decoding of the UTF-8 bytes of a literal written in this (UTF-8) file:
    [acc] is the code point under construction and [need] the number of
    continuation bytes still expected. *)
Fixpoint utf8_go (bs : list N) (acc : N) (need : nat) : str :=
  match bs with
  | [] => []
  | b :: bs' =>
      match need with
      | S n =>
          let acc' := (acc * 64 + b mod 64)%N in
          match n with
          | O => acc' :: utf8_go bs' 0%N O
          | S _ => utf8_go bs' acc' n
          end
      | O =>
          if (b <? 128)%N then b :: utf8_go bs' 0%N O
          else if (b <? 224)%N then utf8_go bs' (b mod 32)%N 1%nat
          else if (b <? 240)%N then utf8_go bs' (b mod 16)%N 2%nat
          else utf8_go bs' (b mod 8)%N 3%nat
      end
  end.

Definition pystr (s : string) : str :=
  utf8_go (map N_of_ascii (list_ascii_of_string s)) 0%N O.

(** A [str] literal, decoded once where it is written. *)
Notation "'ustr' s" :=
  (ltac:(let v := eval vm_compute in (pystr s%string) in exact v))
  (at level 10, s at level 0, only parsing).

(** [str.isspace] on one character, the test [str.strip()] applies
    (CPython's [_PyUnicode_IsWhitespace]). *)
Definition isspace (c : N) : bool :=
  ((9 <=? c) && (c <=? 13) || (28 <=? c) && (c <=? 32)
   || (c =? 133) || (c =? 160) || (c =? 5760)
   || (8192 <=? c) && (c <=? 8202)
   || (c =? 8232) || (c =? 8233) || (c =? 8239) || (c =? 8287)
   || (c =? 12288))%N.

Fixpoint lstrip (s : str) : str :=
  match s with
  | [] => []
  | c :: s' => if isspace c then lstrip s' else s
  end.

Definition rstrip (s : str) : str := rev (lstrip (rev s)).

(** [s.strip()] *)
Definition strip (s : str) : str := rstrip (lstrip s).

(** [str(n)] for an [int]. *)
Definition str_of_int (n : Z) : str :=
  map N_of_ascii (list_ascii_of_string (NilZero.string_of_int (Z.to_int n))).

(** Values: what [json] produces and consumes.  A JSON object becomes a
    [dict] whose keys are all [str]. *)
Inductive value : Type :=
| VNone
| VBool (b : bool)
| VInt (n : Z)
| VFloat (f : float)
| VStr (s : str)
| VList (l : list value)
| VDict (d : gmap str value).

(** A subscript: the program subscripts with [str] literals and with [0]. *)
Inductive key : Type :=
| KStr (s : str)
| KInt (i : Z).

(** [repr] of a subscript.  For a [str] this is exact when the string has
    no quote, backslash or non-printable character, which holds for the
    keys the program uses. *)
Definition repr_key (k : key) : str :=
  match k with
  | KStr s => ustr "'" ++ s ++ ustr "'"
  | KInt i => str_of_int i
  end.

(** Truth value of a [str] and of an [Optional[str]]. *)
Definition truthy (s : str) : bool :=
  match s with [] => false | _ :: _ => true end.

Definition truthy_opt (o : option str) : bool :=
  match o with None => false | Some s => truthy s end.

End Py.

(** ** The [requests] interface *)

Module Requests.
Import Py.

(** What [Response.json()] does: it returns the decoded body, or raises
    [requests.exceptions.JSONDecodeError] (a [RequestException]; releases
    before 2.27 raise a plain [ValueError] instead). *)
Inductive json_outcome : Type :=
| JsonValue (v : value)
| JsonDecodeError (msg : str)
| JsonValueError (msg : str).

Record Response : Type := mkResponse {
  status_code : Z;
  text : str;
  json_result : json_outcome;
}.

(** The request body [json.dumps(payload)]: the serialisation is kept
    symbolic. *)
Inductive body : Type :=
| json_dumps (payload : value).

(** The arguments of one [requests.post] call. *)
Record Request : Type := mkRequest {
  url : str;
  headers : gmap str str;
  data : body;
  timeout : Z;
}.

(** What [requests.post] does: a transport failure (connection, DNS,
    timeout, ...) raises a [RequestException] whose [str()] is [msg];
    otherwise a response comes back, whatever its status. *)
Inductive post_outcome : Type :=
| PostRaises (msg : str)
| PostReturns (r : Response).

(** [raise_for_status] raises exactly for the statuses 400..599. *)
Definition is_error_status (code : Z) : bool :=
  (400 <=? code) && (code <? 600).

End Requests.

(** ** Exceptions, the world, and the monad of effects *)

Module Runtime.
Import Py Requests.

Inductive exn : Type :=
| SystemExit (code : Z)
| HTTPError (response : Response)
  (** an instance of another subclass of [requests.RequestException];
      [msg] is its [str()] *)
| RequestException (msg : str)
| ValueError (msg : str)
| KeyError (k : key)
| IndexError (msg : str)
| TypeError
| AttributeError
  (** raised by a write to a stream that cannot encode the text *)
| UnicodeEncodeError.

(** [str(exc)]; the program formats it for [RequestException], [KeyError]
    and [IndexError] only. *)
Definition str_of_exn (e : exn) : str :=
  match e with
  | KeyError k => repr_key k
  | IndexError msg | RequestException msg | ValueError msg => msg
  | _ => []
  end.

(** The options found on the command line, before defaults. *)
Record Options : Type := mkOptions {
  opt_text : option str;
  opt_model : option str;
  opt_temperature : option float;
}.

(** What [ArgumentParser.parse_args()] makes of [sys.argv]: the options, or
    [-h]/[--help] (the help text goes to standard output, exit status 0),
    or a usage error (usage and message go to standard error, exit
    status 2). *)
Inductive argv_outcome : Type :=
| ArgvOptions (o : Options)
| ArgvHelp (help_text : str)
| ArgvError (usage : str).

(** Everything outside the program that a run depends on. *)
Record World : Type := mkWorld {
  argv : argv_outcome;
  stdin : str;
  environ : gmap str str;
  network : Request -> post_outcome;
  (** the characters the encoding of [sys.stdout] can encode (every code
      point when an error handler such as [replace] is configured) *)
  stdout_encodable : N -> bool;
}.

Inductive stream : Type := Stdout | Stderr.

(** Observable effects, in the order they happen. *)
Inductive event : Type :=
| Getenv (name : str)
| StdinRead
| Post (req : Request)
| Write (f : stream) (s : str)
  (** the interpreter's report of an uncaught exception, on standard error *)
| Traceback (e : exn).

Record State : Type := mkState {
  unread : str;          (* standard input not yet consumed *)
  trace : list event;
}.

Definition log (e : event) (s : State) : State :=
  {| unread := unread s; trace := trace s ++ [e] |}.

Inductive result (A : Type) : Type :=
| Val (a : A)
| Exc (e : exn).
Arguments Val {A} a.
Arguments Exc {A} e.

Definition M (A : Type) : Type := World -> State -> result A * State.

#[global] Instance M_ret : MRet M := fun A a _ s => (Val a, s).

#[global] Instance M_bind : MBind M := fun A B f c w s =>
  match c w s with
  | (Val a, s') => f a w s'
  | (Exc e, s') => (Exc e, s')
  end.

Definition raise {A : Type} (e : exn) : M A := fun _ s => (Exc e, s).

(** [try: body / except ...]: [handler e] is the matching clause, if any. *)
Definition try_except {A : Type} (body : M A) (handler : exn -> option (M A)) : M A :=
  fun w s =>
    match body w s with
    | (Val a, s') => (Val a, s')
    | (Exc e, s') =>
        match handler e with
        | Some h => h w s'
        | None => (Exc e, s')
        end
    end.

(** [os.getenv(name)] *)
Definition getenv (name : str) : M (option str) :=
  fun w s => (Val (environ w !! name), log (Getenv name) s).

(** [os.getenv(name, default)] *)
Definition getenv_default (name dflt : str) : M str :=
  o ← getenv name; mret (default dflt o).

(** [sys.stdin.read()]: everything up to end of stream. *)
Definition stdin_read : M str :=
  fun _ s => (Val (unread s), {| unread := []; trace := trace s ++ [StdinRead] |}).

(** [print(s, file=f)].  [sys.stdout] encodes strictly: the write of a text
    with a character the encoding lacks raises [UnicodeEncodeError] before
    anything reaches the stream.  [sys.stderr] escapes such characters
    ([backslashreplace]) and does not fail. *)
Definition print (f : stream) (s : str) : M unit :=
  fun w st =>
    match f with
    | Stdout =>
        if forallb (stdout_encodable w) s
        then (Val tt, log (Write Stdout (s ++ [10%N])) st)
        else (Exc UnicodeEncodeError, st)
    | Stderr => (Val tt, log (Write Stderr (s ++ [10%N])) st)
    end.

(** [parser.parse_args()] *)
Definition argparse_parse_args : M Options :=
  fun w s =>
    match argv w with
    | ArgvOptions o => (Val o, s)
    | ArgvHelp h => (Exc (SystemExit 0), log (Write Stdout h) s)
    | ArgvError u => (Exc (SystemExit 2), log (Write Stderr u) s)
    end.

(** [requests.post(url, headers=..., data=..., timeout=...)] *)
Definition requests_post (u : str) (h : gmap str str) (d : body) (t : Z) : M Response :=
  fun w s =>
    let req := mkRequest u h d t in
    match network w req with
    | PostRaises msg => (Exc (RequestException msg), log (Post req) s)
    | PostReturns r => (Val r, log (Post req) s)
    end.

(** [response.raise_for_status()] *)
Definition raise_for_status (r : Response) : M unit :=
  if is_error_status (status_code r) then raise (HTTPError r) else mret tt.

(** [response.json()] *)
Definition json (r : Response) : M value :=
  match json_result r with
  | JsonValue v => mret v
  | JsonDecodeError msg => raise (RequestException msg)
  | JsonValueError msg => raise (ValueError msg)
  end.

(** [l[i]] on a sequence, negative indices counting from the end. *)
Definition index {A : Type} (l : list A) (i : Z) : option A :=
  if (0 <=? i) then l !! Z.to_nat i
  else if (0 <=? Z.of_nat (length l) + i) then l !! Z.to_nat (Z.of_nat (length l) + i)
  else None.

(** [v[k]] *)
Definition subscript (v : value) (k : key) : M value :=
  match v, k with
  | VDict d, KStr s =>
      match d !! s with
      | Some x => mret x
      | None => raise (KeyError k)
      end
  | VDict _, KInt _ => raise (KeyError k)
  | VList l, KInt i =>
      match index l i with
      | Some x => mret x
      | None => raise (IndexError (ustr "list index out of range"))
      end
  | VStr s, KInt i =>
      match index s i with
      | Some c => mret (VStr [c])
      | None => raise (IndexError (ustr "string index out of range"))
      end
  | _, _ => raise TypeError
  end.

(** [v.strip()] *)
Definition method_strip (v : value) : M str :=
  match v with
  | VStr s => mret (strip s)
  | _ => raise AttributeError
  end.

Definition init (w : World) : State := {| unread := stdin w; trace := [] |}.

(** Running a script whose last statement is [raise SystemExit(body())]:
    the exit status and the trace.  An exception other than [SystemExit]
    that reaches the top level is reported on standard error and the
    interpreter exits with status 1. *)
Definition run_script (script : M Z) (w : World) : Z * list event :=
  match script w (init w) with
  | (Val n, s) => (n, trace s)
  | (Exc (SystemExit c), s) => (c, trace s)
  | (Exc e, s) => (1, trace s ++ [Traceback e])
  end.

Definition stream_eqb (f g : stream) : bool :=
  match f, g with
  | Stdout, Stdout | Stderr, Stderr => true
  | _, _ => false
  end.

(** What was written to a stream, concatenated. *)
Fixpoint written (f : stream) (t : list event) : str :=
  match t with
  | [] => []
  | Write g s :: t' => if stream_eqb f g then s ++ written f t' else written f t'
  | _ :: t' => written f t'
  end.

(** The requests sent, the environment variables consulted, and the number
    of reads of standard input. *)
Fixpoint posts (t : list event) : list Request :=
  match t with
  | [] => []
  | Post r :: t' => r :: posts t'
  | _ :: t' => posts t'
  end.

Fixpoint env_lookups (t : list event) : list str :=
  match t with
  | [] => []
  | Getenv n :: t' => n :: env_lookups t'
  | _ :: t' => env_lookups t'
  end.

Fixpoint stdin_reads (t : list event) : nat :=
  match t with
  | [] => O
  | StdinRead :: t' => S (stdin_reads t')
  | _ :: t' => stdin_reads t'
  end.

(** Has the interpreter reported an uncaught exception? *)
Fixpoint tracebacks (t : list event) : list exn :=
  match t with
  | [] => []
  | Traceback e :: t' => e :: tracebacks t'
  | _ :: t' => tracebacks t'
  end.

End Runtime.

(** ** The program *)

Module Spellcheck.
Import Py Requests Runtime.

Definition API_URL : str :=
  ustr "https://api.openai.com/v1/chat/completions".

(** [DEFAULT_MODEL = os.getenv("OPENAI_MODEL", "gpt-4.1-mini")], evaluated
    when the module is loaded. *)
Definition DEFAULT_MODEL : M str :=
  getenv_default (ustr "OPENAI_MODEL") (ustr "gpt-4.1-mini").

Definition SYSTEM_PROMPT : str :=
  ustr "Ты профессиональный корректор. Исправь орфографию и пунктуацию, "
    ++ ustr "сохраняя смысл и стиль. Верни только исправленный текст без пояснений.".

Definition read_stdin : M str :=
  s ← stdin_read; mret (strip s).

Definition build_payload (text model : str) (temperature : float) : value :=
  VDict (list_to_map [
    (ustr "model", VStr model);
    (ustr "temperature", VFloat temperature);
    (ustr "messages", VList [
       VDict (list_to_map [(ustr "role", VStr (ustr "system"));
                           (ustr "content", VStr SYSTEM_PROMPT)]);
       VDict (list_to_map [(ustr "role", VStr (ustr "user"));
                           (ustr "content", VStr text)])
     ])
  ]).

Definition call_openai (text api_key model : str) (temperature : float) : M str :=
  let headers : gmap str str := list_to_map [
    (ustr "Authorization", ustr "Bearer " ++ api_key);
    (ustr "Content-Type", ustr "application/json")
  ] in
  let payload := build_payload text model temperature in
  response ← requests_post API_URL headers (json_dumps payload) 60;
  raise_for_status response;;
  data ← json response;
  choices ← subscript data (KStr (ustr "choices"));
  choice ← subscript choices (KInt 0);
  message ← subscript choice (KStr (ustr "message"));
  content ← subscript message (KStr (ustr "content"));
  method_strip content.

Record Namespace : Type := mkNamespace {
  ns_text : option str;
  ns_model : str;
  ns_temperature : float;
}.

(** [default_model] is the module-level [DEFAULT_MODEL]. *)
Definition parse_args (default_model : str) : M Namespace :=
  o ← argparse_parse_args;
  mret {| ns_text := opt_text o;
          ns_model := default default_model (opt_model o);
          ns_temperature := default 0%float (opt_temperature o) |}.

Definition MSG_NO_TEXT : str :=
  ustr "Ошибка: нет текста для проверки.".

Definition MSG_NO_KEY : str :=
  ustr "Ошибка: переменная окружения OPENAI_API_KEY не задана.".

Definition MSG_HTTP (status : Z) (body : str) : str :=
  ustr "Ошибка HTTP: " ++ str_of_int status ++ ustr " " ++ body.

Definition MSG_REQUEST (exc : exn) : str :=
  ustr "Ошибка запроса: " ++ str_of_exn exc.

Definition MSG_RESPONSE (exc : exn) : str :=
  ustr "Ошибка ответа API: " ++ str_of_exn exc.

Definition OPENAI_API_KEY : str := ustr "OPENAI_API_KEY".

(** The three [except] clauses of [main], in order; each ends in
    [return 1]. *)
Definition handlers (exc : exn) : option (M (Z + str)) :=
  match exc with
  | HTTPError response =>
      Some (print Stderr (MSG_HTTP (status_code response) (text response));;
            mret (inl 1))
  | RequestException _ =>
      Some (print Stderr (MSG_REQUEST exc);; mret (inl 1))
  | KeyError _ | IndexError _ =>
      Some (print Stderr (MSG_RESPONSE exc);; mret (inl 1))
  | _ => None
  end.

(** The input resolver, the right-hand side of
    [text = args.text or read_stdin()]: [read_stdin()] is evaluated only
    when [args.text] is [None] or empty. *)
Definition resolve_text (args : Namespace) : M str :=
  match ns_text args with
  | Some t => if truthy t then mret t else read_stdin
  | None => read_stdin
  end.

(** [main]: its value is the [int] it returns. *)
Definition main (default_model : str) : M Z :=
  args ← parse_args default_model;
  text ← resolve_text args;
  if negb (truthy text) then
    print Stderr MSG_NO_TEXT;; mret 1
  else
    api_key ← getenv OPENAI_API_KEY;
    match api_key with
    | Some key =>
        if negb (truthy key) then
          print Stderr MSG_NO_KEY;; mret 1
        else
          r ← try_except
                (corrected ← call_openai text key (ns_model args) (ns_temperature args);
                 mret (inr corrected))
                handlers;
          match r with
          | inl code => mret code
          | inr corrected => print Stdout corrected;; mret 0
          end
    | None => print Stderr MSG_NO_KEY;; mret 1
    end.

(** The whole script: the module-level assignment, then
    [raise SystemExit(main())]. *)
Definition script : M Z :=
  default_model ← DEFAULT_MODEL; main default_model.

Definition run (w : World) : Z * list event := run_script script w.

(** The exit status of the process, and what the program wrote to its two
    streams (a traceback of the interpreter is the separate event
    [Traceback]). *)
Definition exit_status (w : World) : Z := fst (run w).
Definition stdout (w : World) : str := written Stdout (snd (run w)).
Definition stderr (w : World) : str := written Stderr (snd (run w)).

End Spellcheck.


(** ** Vocabulary of the statements

    Closed forms of what a run sends and prints.  They are used to state the
    lemmas below; each is related to the program by a lemma. *)

Module Outcome.
Import Py Requests Runtime Spellcheck.

Definition all_space (s : str) : Prop := Forall (fun c => isspace c = true) s.

(** No whitespace at either end. *)
Definition trimmed (s : str) : Prop :=
  (forall c t, s = c :: t -> isspace c = false) /\
  (forall t c, s = t ++ [c] -> isspace c = false).

(** The request [call_openai] assembles (lines 35-40 of the source). *)
Definition request_of (text api_key model : str) (temperature : float) : Request :=
  {| url := API_URL;
     headers := list_to_map [
       (ustr "Authorization", ustr "Bearer " ++ api_key);
       (ustr "Content-Type", ustr "application/json")
     ];
     data := json_dumps (build_payload text model temperature);
     timeout := 60 |}.

(** The namespace [parse_args] builds from the options of the command line
    and the environment. *)
Definition namespace_of (w : World) (o : Options) : Namespace :=
  {| ns_text := opt_text o;
     ns_model :=
       default (default (ustr "gpt-4.1-mini") (environ w !! ustr "OPENAI_MODEL"))
               (opt_model o);
     ns_temperature := default 0%float (opt_temperature o) |}.

(** The text the input resolver yields. *)
Definition resolved (w : World) (o : Options) : str :=
  if truthy_opt (opt_text o) then default [] (opt_text o) else strip (stdin w).

(** The events of a run up to and including the input resolver. *)
Definition prelude (o : Options) : list event :=
  Getenv (ustr "OPENAI_MODEL") :: (if truthy_opt (opt_text o) then [] else [StdinRead]).

(** What [main] does with the outcome of [call_openai]: the exit status of
    the process and the events after the request. *)
Definition status_of (w : World) (res : result str) : Z :=
  match res with
  | Val corrected => if forallb (stdout_encodable w) corrected then 0 else 1
  | Exc (SystemExit c) => c
  | Exc _ => 1
  end.

Definition report (w : World) (res : result str) : list event :=
  match res with
  | Val corrected =>
      if forallb (stdout_encodable w) corrected
      then [Write Stdout (corrected ++ [10%N])]
      else [Traceback UnicodeEncodeError]
  | Exc (HTTPError r) => [Write Stderr (MSG_HTTP (status_code r) (text r) ++ [10%N])]
  | Exc (RequestException msg) => [Write Stderr (MSG_REQUEST (RequestException msg) ++ [10%N])]
  | Exc (KeyError k) => [Write Stderr (MSG_RESPONSE (KeyError k) ++ [10%N])]
  | Exc (IndexError msg) => [Write Stderr (MSG_RESPONSE (IndexError msg) ++ [10%N])]
  | Exc (SystemExit _) => []
  | Exc e => [Traceback e]
  end.

(** [corrected] is what the Completion Client returned in the run of [w]. *)
Definition client_returned (w : World) (corrected : str) : Prop :=
  exists text key model temperature s s',
    In (request_of text key model temperature) (posts (snd (run w))) /\
    call_openai text key model temperature w s = (Val corrected, s').

(** "No partial success": status 0 with the corrected text (and its
    newline) as the whole of standard output, or status 1 with nothing on
    standard output. *)
Definition no_partial_success (w : World) : Prop :=
  (exit_status w = 0 /\
   exists corrected, client_returned w corrected /\ stdout w = corrected ++ [10%N])
  \/ (exit_status w = 1 /\ stdout w = []).

(** *** Sample worlds *)

(** UTF-8 encodes every code point but the surrogates U+D800..U+DFFF. *)
Definition utf8_encodable (c : N) : bool :=
  negb ((55296 <=? c) && (c <=? 57343))%N.

Definition sample_environ : gmap str str :=
  {[ OPENAI_API_KEY := ustr "sk-test" ]}.

(** A 200 response whose body is
    [{"choices": [{"message": {"content": content}}]}]. *)
Definition completion (content : value) : Response :=
  {| status_code := 200;
     text := [];
     json_result :=
       JsonValue (VDict {[ ustr "choices" :=
         VList [VDict {[ ustr "message" :=
           VDict {[ ustr "content" := content ]} ]}] ]}) |}.

Definition options_text (t : option str) : argv_outcome :=
  ArgvOptions {| opt_text := t; opt_model := None; opt_temperature := None |}.

(** [-t] with the text [Привет как дела], answered by [Привет, как дела?]
    between a space and a newline. *)
Definition world_ok : World :=
  {| argv := options_text (Some (ustr "Привет как дела"));
     stdin := ustr "ignored";
     environ := sample_environ;
     network := fun _ => PostReturns (completion (VStr (ustr " Привет, как дела?" ++ [10%N])));
     stdout_encodable := utf8_encodable |}.

(** [-t] with the empty string, and [hello] between spaces on standard
    input. *)
Definition world_empty_argument : World :=
  {| argv := options_text (Some []);
     stdin := ustr "  hello ";
     environ := sample_environ;
     network := fun _ => PostReturns (completion (VStr (ustr "hello")));
     stdout_encodable := utf8_encodable |}.

(** No [-t], blank standard input, no credential. *)
Definition world_no_text : World :=
  {| argv := options_text None;
     stdin := [10%N; 32%N; 32%N];
     environ := ∅;
     network := fun _ => PostRaises [];
     stdout_encodable := utf8_encodable |}.

(** [-t abc] with [OPENAI_API_KEY] set to the empty string. *)
Definition world_no_key : World :=
  {| argv := options_text (Some (ustr "abc"));
     stdin := [];
     environ := {[ OPENAI_API_KEY := [] ]};
     network := fun _ => PostRaises [];
     stdout_encodable := utf8_encodable |}.

(** The endpoint answers 401 with the body [denied]. *)
Definition world_401 : World :=
  {| argv := options_text (Some (ustr "abc"));
     stdin := [];
     environ := sample_environ;
     network := fun _ =>
       PostReturns {| status_code := 401; text := ustr "denied";
                      json_result := JsonValue VNone |};
     stdout_encodable := utf8_encodable |}.

(** The endpoint answers 200 with the body [{"choices": null}]. *)
Definition world_null_choices : World :=
  {| argv := options_text (Some (ustr "abc"));
     stdin := [];
     environ := sample_environ;
     network := fun _ =>
       PostReturns {| status_code := 200; text := [];
                      json_result :=
                        JsonValue (VDict {[ ustr "choices" := VNone ]}) |};
     stdout_encodable := utf8_encodable |}.

(** The endpoint answers 200 with the body
    [{"choices": [{"message": {"content": null}}]}]. *)
Definition world_null_content : World :=
  {| argv := options_text (Some (ustr "abc"));
     stdin := [];
     environ := sample_environ;
     network := fun _ => PostReturns (completion VNone);
     stdout_encodable := utf8_encodable |}.

(** The endpoint answers with the status 399 and a well-formed completion as
    its body. *)
Definition world_399 : World :=
  {| argv := options_text (Some (ustr "abc"));
     stdin := [];
     environ := sample_environ;
     network := fun _ =>
       PostReturns {| status_code := 399; text := [];
                      json_result := json_result (completion (VStr (ustr "abc"))) |};
     stdout_encodable := utf8_encodable |}.

(** The request times out. *)
Definition world_timeout : World :=
  {| argv := options_text (Some (ustr "abc"));
     stdin := [];
     environ := sample_environ;
     network := fun _ => PostRaises (ustr "Read timed out. (read timeout=60)");
     stdout_encodable := utf8_encodable |}.

(** An unknown option on the command line, and [--help]. *)
Definition world_usage : World :=
  {| argv := ArgvError (ustr "usage: spellcheck.py [-h] [-t TEXT] [-m MODEL] [--temperature TEMPERATURE]");
     stdin := [];
     environ := sample_environ;
     network := fun _ => PostRaises [];
     stdout_encodable := utf8_encodable |}.

Definition world_help : World :=
  {| argv := ArgvHelp (ustr "usage: spellcheck.py [-h] [-t TEXT] [-m MODEL] [--temperature TEMPERATURE]");
     stdin := [];
     environ := sample_environ;
     network := fun _ => PostRaises [];
     stdout_encodable := utf8_encodable |}.

(** The endpoint answers 200 with the body [{}]. *)
Definition world_empty_body : World :=
  {| argv := options_text (Some (ustr "abc"));
     stdin := [];
     environ := sample_environ;
     network := fun _ =>
       PostReturns {| status_code := 200; text := ustr "{}";
                      json_result := JsonValue (VDict ∅) |};
     stdout_encodable := utf8_encodable |}.

(** The endpoint answers 200 with the body [{"choices": [{}]}]. *)
Definition world_no_message : World :=
  {| argv := options_text (Some (ustr "abc"));
     stdin := [];
     environ := sample_environ;
     network := fun _ =>
       PostReturns {| status_code := 200; text := [];
                      json_result :=
                        JsonValue (VDict {[ ustr "choices" := VList [VDict ∅] ]}) |};
     stdout_encodable := utf8_encodable |}.

(** The endpoint answers 200 with the body [[]] (an array, not an object). *)
Definition world_array_body : World :=
  {| argv := options_text (Some (ustr "abc"));
     stdin := [];
     environ := sample_environ;
     network := fun _ =>
       PostReturns {| status_code := 200; text := ustr "[]";
                      json_result := JsonValue (VList []) |};
     stdout_encodable := utf8_encodable |}.

(** The endpoint answers 200 with a body that is not JSON. *)
Definition world_not_json : World :=
  {| argv := options_text (Some (ustr "abc"));
     stdin := [];
     environ := sample_environ;
     network := fun _ =>
       PostReturns {| status_code := 200; text := ustr "<html>";
                      json_result :=
                        JsonDecodeError (ustr "Expecting value: line 1 column 1 (char 0)") |};
     stdout_encodable := utf8_encodable |}.

(** [-m gpt-4o --temperature 0.5] with [OPENAI_MODEL] set as well, the text
    coming from standard input. *)
Definition world_model_option : World :=
  {| argv := ArgvOptions {| opt_text := None;
                            opt_model := Some (ustr "gpt-4o");
                            opt_temperature := Some 0.5%float |};
     stdin := ustr " abc ";
     environ := <[ ustr "OPENAI_MODEL" := ustr "gpt-4.1" ]> sample_environ;
     network := fun _ => PostReturns (completion (VStr (ustr "abc")));
     stdout_encodable := utf8_encodable |}.

(** The reports of a trace: the writes to either stream and the tracebacks
    of the interpreter, counted. *)
Fixpoint reports (t : list event) : nat :=
  match t with
  | [] => O
  | Write _ _ :: t' => S (reports t')
  | Traceback _ :: t' => S (reports t')
  | _ :: t' => reports t'
  end.

(** The endpoint answers 200 with a completion made of a space and a
    newline. *)
Definition world_blank_completion : World :=
  {| argv := options_text (Some (ustr "abc"));
     stdin := [];
     environ := sample_environ;
     network := fun _ => PostReturns (completion (VStr [32%N; 10%N]));
     stdout_encodable := utf8_encodable |}.

(** The endpoint answers 200 with a completion whose content is the lone
    surrogate U+D800 (the JSON text [\ud800]); standard output is UTF-8. *)
Definition world_surrogate : World :=
  {| argv := options_text (Some (ustr "abc"));
     stdin := [];
     environ := sample_environ;
     network := fun _ => PostReturns (completion (VStr [55296%N]));
     stdout_encodable := utf8_encodable |}.

(** A status outside the successful class 200..299. *)
Definition non_success (code : Z) : bool :=
  negb ((200 <=? code) && (code <? 300)).

(** The report of HTTP errors read literally, for every status that is not
    a success: the HTTP diagnostic with status and body on standard error,
    nothing on standard output, exit status 1. *)
Definition non_success_reported (w : World) : Prop :=
  forall req r,
    In req (posts (snd (run w))) ->
    network w req = PostReturns r ->
    non_success (status_code r) = true ->
    stderr w = MSG_HTTP (status_code r) (text r) ++ [10%N] /\
    stdout w = [] /\
    exit_status w = 1.

(** The success path read literally: whatever text the client returned is
    printed with its newline and the exit status is 0. *)
Definition success_printed (w : World) : Prop :=
  forall corrected,
    client_returned w corrected ->
    stdout w = corrected ++ [10%N] /\ exit_status w = 0.

(** The input resolver's contract read literally: any supplied argument is
    the resolved text, and resolving it leaves the state (standard input and
    trace) as it was. *)
Definition argument_verbatim (args : Namespace) (w : World) (s : State) : Prop :=
  forall t, ns_text args = Some t -> resolve_text args w s = (Val t, s).

End Outcome.


(** * Properties *)

(** ** [str.strip] *)

Module PyFacts.
Import Py Outcome.

Lemma lstrip_split (s : str) :
  exists pre, s = pre ++ lstrip s /\ all_space pre.
Proof.
  induction s as [|c s IH]; simpl.
  - exists []. split; [reflexivity | constructor].
  - destruct (isspace c) eqn:Hc.
    + destruct IH as (pre & Hs & Hpre).
      exists (c :: pre). split.
      * simpl. f_equal. exact Hs.
      * constructor; assumption.
    + exists []. split; [reflexivity | constructor].
Qed.

Lemma lstrip_head (s : str) c t : lstrip s = c :: t -> isspace c = false.
Proof.
  induction s as [|a s IH]; simpl; [discriminate|].
  destruct (isspace a) eqn:Ha; [exact IH|].
  intros [= <- <-]. exact Ha.
Qed.

Lemma lstrip_fix (s : str) :
  (forall c t, s = c :: t -> isspace c = false) -> lstrip s = s.
Proof.
  destruct s as [|c t]; [reflexivity|].
  intros H. simpl. rewrite (H c t eq_refl). reflexivity.
Qed.

Lemma rstrip_split (s : str) :
  exists post, s = rstrip s ++ post /\ all_space post.
Proof.
  unfold rstrip.
  destruct (lstrip_split (rev s)) as (pre & Hs & Hpre).
  exists (rev pre). split.
  - rewrite <- rev_app_distr, <- Hs, rev_involutive. reflexivity.
  - apply Forall_rev. exact Hpre.
Qed.

Lemma rstrip_last (s : str) t c : rstrip s = t ++ [c] -> isspace c = false.
Proof.
  unfold rstrip. intros H.
  apply (f_equal (@rev N)) in H.
  rewrite rev_involutive, rev_app_distr in H. simpl in H.
  exact (lstrip_head _ _ _ H).
Qed.

Lemma strip_split (s : str) :
  exists pre post, s = pre ++ strip s ++ post /\ all_space pre /\ all_space post.
Proof.
  unfold strip.
  destruct (lstrip_split s) as (pre & Hs & Hpre).
  destruct (rstrip_split (lstrip s)) as (post & Hl & Hpost).
  exists pre, post. split; [|split]; try assumption.
  rewrite <- Hl. exact Hs.
Qed.

Lemma strip_trimmed (s : str) : trimmed (strip s).
Proof.
  unfold strip. split.
  - intros c t H.
    destruct (rstrip_split (lstrip s)) as (post & Hl & _).
    rewrite H in Hl. simpl in Hl.
    exact (lstrip_head _ _ _ Hl).
  - intros t c H. exact (rstrip_last _ _ _ H).
Qed.

Lemma strip_nil_iff (s : str) : strip s = [] <-> all_space s.
Proof.
  split.
  - intros H. destruct (strip_split s) as (pre & post & Hs & Hpre & Hpost).
    rewrite H in Hs. simpl in Hs. rewrite Hs.
    apply Forall_app. split; assumption.
  - intros H. unfold strip.
    assert (Hl : lstrip s = []).
    { induction H as [|c s Hc _ IH]; simpl; [reflexivity|]. rewrite Hc. exact IH. }
    rewrite Hl. reflexivity.
Qed.

Example strip_example :
  strip (ustr "  Привет, как дела? ") = ustr "Привет, как дела?".
Proof. reflexivity. Qed.

(** U+00A0 and U+3000 are whitespace for [str.strip] as well. *)
Example strip_unicode_space : strip [160%N; 97%N; 32%N; 98%N; 12288%N; 10%N] = [97%N; 32%N; 98%N].
Proof. reflexivity. Qed.

End PyFacts.
(** ** The Completion Client *)

Module ClientFacts.
Import Py Requests Runtime Spellcheck Outcome.

#[local] Arguments strip : simpl never.
#[local] Arguments build_payload : simpl never.
#[local] Arguments list_to_map : simpl never.
#[local] Arguments str_of_int : simpl never.
#[local] Arguments index : simpl never.

Lemma index_0_cons {A : Type} (x : A) (l : list A) : index (x :: l) 0 = Some x.
Proof. reflexivity. Qed.

Lemma index_0_nil {A : Type} : index (@nil A) 0 = None.
Proof. reflexivity. Qed.

Ltac unfold_client :=
  unfold call_openai, requests_post, raise_for_status, json, subscript, method_strip,
    raise, log;
  unfold mbind, M_bind, mret, M_ret.

Ltac start_client text key model temperature :=
  unfold_client; fold (request_of text key model temperature).

(** Whatever the network answers, one call of the client logs exactly one
    request, never exits the process, and its result does not depend on the
    state it starts from. *)
Lemma call_openai_post text key model temperature w :
  exists res, (forall c, res <> Exc (SystemExit c)) /\
    forall s, call_openai text key model temperature w s
              = (res, log (Post (request_of text key model temperature)) s).
Proof.
  start_client text key model temperature.
  destruct (network w (request_of text key model temperature)) as [msg|r].
  { eexists. split; [|intros s; reflexivity]. intros c; discriminate. }
  destruct (is_error_status (status_code r)).
  { eexists. split; [|intros s; reflexivity]. intros c; discriminate. }
  repeat case_match; (eexists; split; [|intros ?; reflexivity]; intros ?; discriminate).
Qed.

Lemma call_openai_transport text key model temperature w s msg :
  network w (request_of text key model temperature) = PostRaises msg ->
  call_openai text key model temperature w s
  = (Exc (RequestException msg), log (Post (request_of text key model temperature)) s).
Proof.
  intros Hn. start_client text key model temperature. rewrite Hn. reflexivity.
Qed.

Lemma call_openai_http_error text key model temperature w s r :
  network w (request_of text key model temperature) = PostReturns r ->
  is_error_status (status_code r) = true ->
  call_openai text key model temperature w s
  = (Exc (HTTPError r), log (Post (request_of text key model temperature)) s).
Proof.
  intros Hn He. start_client text key model temperature. rewrite Hn, He. reflexivity.
Qed.

(** The response shape [data["choices"][0]["message"]["content"]] with a
    [str] at the end. *)
Lemma call_openai_success (text key model : str) (temperature : float)
    (w : World) (s : State) (r : Response)
    (d ch m : gmap str value) (rest : list value) (content : str) :
  network w (request_of text key model temperature) = PostReturns r ->
  is_error_status (status_code r) = false ->
  json_result r = JsonValue (VDict d) ->
  d !! ustr "choices" = Some (VList (VDict ch :: rest)) ->
  ch !! ustr "message" = Some (VDict m) ->
  m !! ustr "content" = Some (VStr content) ->
  call_openai text key model temperature w s
  = (Val (strip content), log (Post (request_of text key model temperature)) s).
Proof.
  intros Hn He Hj Hd Hch Hm. start_client text key model temperature.
  rewrite Hn, He, Hj, Hd. rewrite index_0_cons. cbn. rewrite Hch, Hm. reflexivity.
Qed.

(** Conversely, the client returns normally only on that shape. *)
Lemma call_openai_returns_inv (text key model : str) (temperature : float)
    (w : World) (s s' : State) (corrected : str) :
  call_openai text key model temperature w s = (Val corrected, s') ->
  exists (r : Response) (d ch m : gmap str value) (rest : list value) (content : str),
    network w (request_of text key model temperature) = PostReturns r /\
    is_error_status (status_code r) = false /\
    json_result r = JsonValue (VDict d) /\
    d !! ustr "choices" = Some (VList (VDict ch :: rest)) /\
    ch !! ustr "message" = Some (VDict m) /\
    m !! ustr "content" = Some (VStr content) /\
    corrected = strip content.
Proof.
  start_client text key model temperature.
  destruct (network w (request_of text key model temperature)) as [msg|r]; [discriminate|].
  destruct (is_error_status (status_code r)) eqn:He; [discriminate|].
  destruct (json_result r) as [[| | | | |l|d]| |] eqn:Hj; try discriminate.
  destruct (d !! _) as [[| | | | |[|[| | | | | |ch] rest]|]|] eqn:Hd; try discriminate.
  all: rewrite ?index_0_nil, ?index_0_cons; try discriminate.
  1: destruct (index _ _); discriminate.
  destruct (ch !! _) as [[| | | | | |m]|] eqn:Hch; try discriminate.
  destruct (m !! _) as [[| | | |content| |]|] eqn:Hm; try discriminate.
  intros [= <- <-].
  exists r, d, ch, m, rest, content. repeat split; assumption.
Qed.

End ClientFacts.

(** ** The driver: closed forms of a run *)

Module DriverFacts.
Import Py Requests Runtime Spellcheck Outcome ClientFacts.

#[local] Arguments strip : simpl never.
#[local] Arguments build_payload : simpl never.
#[local] Arguments list_to_map : simpl never.
#[local] Arguments str_of_int : simpl never.
#[local] Arguments call_openai : simpl never.
#[local] Arguments MSG_HTTP : simpl never.

Ltac unfold_driver :=
  unfold run, run_script, script, main, DEFAULT_MODEL, getenv_default, parse_args,
    argparse_parse_args, resolve_text, read_stdin, stdin_read, print, getenv,
    try_except, init, log;
  unfold mbind, M_bind, mret, M_ret.

Lemma written_app f (t1 t2 : list event) :
  written f (t1 ++ t2) = written f t1 ++ written f t2.
Proof.
  induction t1 as [|e t1 IH]; [reflexivity|].
  destruct e; simpl; try exact IH.
  destruct (stream_eqb f f0); [|exact IH].
  rewrite IH. apply app_assoc.
Qed.

Lemma posts_app (t1 t2 : list event) : posts (t1 ++ t2) = posts t1 ++ posts t2.
Proof.
  induction t1 as [|e t1 IH]; [reflexivity|].
  destruct e; simpl; rewrite ?IH; reflexivity.
Qed.

Lemma env_lookups_app (t1 t2 : list event) :
  env_lookups (t1 ++ t2) = env_lookups t1 ++ env_lookups t2.
Proof.
  induction t1 as [|e t1 IH]; [reflexivity|].
  destruct e; simpl; rewrite ?IH; reflexivity.
Qed.

Lemma stdin_reads_app (t1 t2 : list event) :
  stdin_reads (t1 ++ t2) = (stdin_reads t1 + stdin_reads t2)%nat.
Proof.
  induction t1 as [|e t1 IH]; [reflexivity|].
  destruct e; simpl; rewrite ?IH; reflexivity.
Qed.

(** Nothing is written, and nothing is sent, before the input is resolved. *)
Lemma prelude_silent (o : Options) f :
  written f (prelude o) = [] /\ posts (prelude o) = [] /\
  env_lookups (prelude o) = [ustr "OPENAI_MODEL"] /\
  stdin_reads (prelude o) = if truthy_opt (opt_text o) then O else 1%nat.
Proof.
  unfold prelude. destruct (truthy_opt (opt_text o)); repeat split.
Qed.

Lemma run_help (w : World) (h : str) :
  argv w = ArgvHelp h ->
  run w = (0, [Getenv (ustr "OPENAI_MODEL"); Write Stdout h]).
Proof. intros Ha. unfold_driver. cbn. rewrite Ha. reflexivity. Qed.

Lemma run_usage (w : World) (u : str) :
  argv w = ArgvError u ->
  run w = (2, [Getenv (ustr "OPENAI_MODEL"); Write Stderr u]).
Proof. intros Ha. unfold_driver. cbn. rewrite Ha. reflexivity. Qed.

(** Runs whose command line is accepted. *)
Section Parsed.
Context (w : World) (o : Options) (Hargv : argv w = ArgvOptions o).

Lemma run_no_text :
  resolved w o = [] ->
  run w = (1, prelude o ++ [Write Stderr (MSG_NO_TEXT ++ [10%N])]).
Proof.
  intros Hr. unfold_driver. cbn. rewrite Hargv. cbn.
  unfold resolved, prelude in *.
  destruct (opt_text o) as [[|c t]|]; cbn in *; try discriminate;
    rewrite Hr; reflexivity.
Qed.

Lemma run_no_key :
  resolved w o <> [] ->
  truthy_opt (environ w !! OPENAI_API_KEY) = false ->
  run w = (1, prelude o ++ [Getenv OPENAI_API_KEY; Write Stderr (MSG_NO_KEY ++ [10%N])]).
Proof.
  intros Hr Hk. unfold_driver. cbn. rewrite Hargv. cbn.
  unfold resolved, prelude in *.
  destruct (opt_text o) as [[|c t]|]; cbn in *;
    try (destruct (strip (stdin w)) as [|c' t'] eqn:Hs; [congruence|]; cbn);
    destruct (environ w !! OPENAI_API_KEY) as [[|k key]|]; cbn in *;
    try discriminate; reflexivity.
Qed.

Lemma run_client (key : str) (res : result str) :
  resolved w o <> [] ->
  environ w !! OPENAI_API_KEY = Some key ->
  key <> [] ->
  let args := namespace_of w o in
  let req := request_of (resolved w o) key (ns_model args) (ns_temperature args) in
  (forall s, call_openai (resolved w o) key (ns_model args) (ns_temperature args) w s
             = (res, log (Post req) s)) ->
  run w = (status_of w res, prelude o ++ [Getenv OPENAI_API_KEY; Post req] ++ report w res).
Proof.
  intros Hr Hk Hkey args req Hc. subst args req.
  unfold_driver. cbn. rewrite Hargv. cbn.
  unfold resolved, prelude, namespace_of in *. cbn in *.
  destruct (opt_text o) as [[|c t]|]; cbn in *;
    try (destruct (strip (stdin w)) as [|c' t'] eqn:Hs; [congruence|]; cbn);
    rewrite Hk; destruct key as [|k key]; try congruence; cbn;
    rewrite Hc; destruct res as [corrected|[]]; cbn; try reflexivity;
    destruct (forallb (stdout_encodable w) corrected); reflexivity.
Qed.

End Parsed.

End DriverFacts.

(** ** Whole runs *)

Module RunFacts.
Import Py Requests Runtime Spellcheck Outcome ClientFacts DriverFacts.

#[local] Arguments call_openai : simpl never.
#[local] Arguments MSG_HTTP : simpl never.
#[local] Arguments MSG_REQUEST : simpl never.
#[local] Arguments MSG_RESPONSE : simpl never.

(** The input resolver computes [resolved] and logs what [prelude] says. *)
Lemma resolve_text_resolved (w : World) (o : Options) (t : list event) :
  resolve_text (namespace_of w o) w {| unread := stdin w; trace := t |}
  = (Val (resolved w o),
     {| unread := if truthy_opt (opt_text o) then stdin w else [];
        trace := t ++ (if truthy_opt (opt_text o) then [] else [StdinRead]) |}).
Proof.
  unfold resolve_text, resolved, namespace_of, read_stdin, stdin_read. simpl.
  destruct (opt_text o) as [[|c s]|]; simpl; rewrite ?app_nil_r; reflexivity.
Qed.

(** The result of the client is a function of the request it sends. *)
Lemma call_openai_determined (text key model text' key' model' : str)
    (temperature temperature' : float) (w : World) (s s' : State) :
  request_of text key model temperature = request_of text' key' model' temperature' ->
  fst (call_openai text key model temperature w s)
  = fst (call_openai text' key' model' temperature' w s').
Proof.
  intros Hreq.
  destruct (call_openai_post text key model temperature w) as (res & _ & Hres).
  destruct (call_openai_post text' key' model' temperature' w) as (res' & _ & Hres').
  rewrite Hres, Hres'. simpl.
  pose proof (Hres s) as H1. pose proof (Hres' s) as H2.
  unfold call_openai, requests_post in H1, H2. unfold mbind, M_bind in H1, H2.
  fold (request_of text key model temperature) in H1.
  fold (request_of text' key' model' temperature') in H2.
  rewrite Hreq in H1. rewrite H1 in H2.
  injection H2 as ->. reflexivity.
Qed.

(** The three ways a run goes once the command line is accepted. *)
Lemma run_options_cases (w : World) (o : Options) :
  argv w = ArgvOptions o ->
  let args := namespace_of w o in
  (resolved w o = [] /\
   run w = (1, prelude o ++ [Write Stderr (MSG_NO_TEXT ++ [10%N])]))
  \/ (resolved w o <> [] /\
      truthy_opt (environ w !! OPENAI_API_KEY) = false /\
      run w = (1, prelude o ++
                  [Getenv OPENAI_API_KEY; Write Stderr (MSG_NO_KEY ++ [10%N])]))
  \/ (exists (key : str) (res : result str),
        let req := request_of (resolved w o) key (ns_model args) (ns_temperature args) in
        resolved w o <> [] /\
        environ w !! OPENAI_API_KEY = Some key /\
        key <> [] /\
        (forall c, res <> Exc (SystemExit c)) /\
        (forall s, call_openai (resolved w o) key (ns_model args) (ns_temperature args) w s
                   = (res, log (Post req) s)) /\
        run w = (status_of w res,
                 prelude o ++ [Getenv OPENAI_API_KEY; Post req] ++ report w res)).
Proof.
  intros Ha args.
  destruct (resolved w o) as [|c t] eqn:Hr.
  { left. split; [reflexivity|]. apply run_no_text; assumption. }
  assert (Hne : resolved w o <> []) by (rewrite Hr; discriminate).
  rewrite <- Hr.
  destruct (environ w !! OPENAI_API_KEY) as [[|k key]|] eqn:Hk.
  - right; left. repeat split; try assumption.
    apply run_no_key; try assumption. rewrite Hk. reflexivity.
  - right; right.
    destruct (call_openai_post (resolved w o) (k :: key) (ns_model args)
                (ns_temperature args) w) as (res & Hexit & Hres).
    exists (k :: key), res. cbv zeta.
    repeat split; try assumption; try discriminate.
    apply (run_client w o Ha); try assumption. discriminate.
  - right; left. repeat split; try assumption.
    apply run_no_key; try assumption. rewrite Hk. reflexivity.
Qed.

Lemma report_written_stdout (w : World) (res : result str) :
  written Stdout (report w res)
  = match res with
    | Val c => if forallb (stdout_encodable w) c then c ++ [10%N] else []
    | Exc _ => []
    end.
Proof.
  destruct res as [c|[]]; simpl; try reflexivity.
  destruct (forallb (stdout_encodable w) c); simpl; rewrite ?app_nil_r; reflexivity.
Qed.

Lemma report_written_stderr_val (w : World) (c : str) :
  written Stderr (report w (Val c)) = [].
Proof. simpl. destruct (forallb (stdout_encodable w) c); reflexivity. Qed.

Lemma report_stdin_reads (w : World) (res : result str) :
  stdin_reads (report w res) = O.
Proof.
  destruct res as [c|[]]; try reflexivity.
  simpl. destruct (forallb (stdout_encodable w) c); reflexivity.
Qed.

Lemma report_posts (w : World) (res : result str) : posts (report w res) = [].
Proof.
  destruct res as [c|[]]; try reflexivity.
  simpl. destruct (forallb (stdout_encodable w) c); reflexivity.
Qed.

(** A request in the trace was sent by the client, called by [main] on the
    resolved text, the credential and the parsed options. *)
Lemma run_posts_inv (w : World) (req : Request) :
  In req (posts (snd (run w))) ->
  exists (o : Options) (key : str) (res : result str),
    let args := namespace_of w o in
    argv w = ArgvOptions o /\
    resolved w o <> [] /\
    environ w !! OPENAI_API_KEY = Some key /\
    key <> [] /\
    req = request_of (resolved w o) key (ns_model args) (ns_temperature args) /\
    (forall c, res <> Exc (SystemExit c)) /\
    (forall s, call_openai (resolved w o) key (ns_model args) (ns_temperature args) w s
               = (res, log (Post req) s)) /\
    run w = (status_of w res, prelude o ++ [Getenv OPENAI_API_KEY; Post req] ++ report w res).
Proof.
  intros Hin.
  destruct (argv w) as [o|h|u] eqn:Ha.
  - destruct (run_options_cases w o Ha) as [(_ & Hrun)|[(_ & _ & Hrun)|Hc]].
    + rewrite Hrun in Hin. cbn [snd] in Hin. rewrite posts_app in Hin.
      destruct (prelude_silent o Stdout) as (_ & Hp & _). rewrite Hp in Hin.
      destruct Hin.
    + rewrite Hrun in Hin. cbn [snd] in Hin. rewrite posts_app in Hin.
      destruct (prelude_silent o Stdout) as (_ & Hp & _). rewrite Hp in Hin.
      destruct Hin.
    + destruct Hc as (key & res & Hr & Hk & Hkey & Hexit & Hres & Hrun).
      exists o, key, res. cbv zeta.
      rewrite Hrun in Hin. cbn [snd] in Hin. rewrite posts_app in Hin.
      destruct (prelude_silent o Stdout) as (_ & Hp & _). rewrite Hp in Hin.
      simpl in Hin. rewrite report_posts in Hin.
      destruct Hin as [<-|[]].
      repeat split; assumption.
  - rewrite (run_help w h Ha) in Hin. destruct Hin.
  - rewrite (run_usage w u Ha) in Hin. destruct Hin.
Qed.

End RunFacts.

(** ** Sample runs *)

Module SampleRuns.
Import Py Requests Runtime Spellcheck Outcome.

(** The run of the specification's example: the text [Привет как дела] is
    answered by [Привет, как дела?]. *)
Example run_world_ok :
  run world_ok
  = (0, [Getenv (ustr "OPENAI_MODEL");
         Getenv OPENAI_API_KEY;
         Post (request_of (ustr "Привет как дела") (ustr "sk-test")
                 (ustr "gpt-4.1-mini") 0%float);
         Write Stdout (ustr "Привет, как дела?" ++ [10%N])]).
Proof. reflexivity. Qed.

(** With [-t] given the empty string, the text sent is the stripped content
    of standard input. *)
Example run_world_empty_argument :
  run world_empty_argument
  = (0, [Getenv (ustr "OPENAI_MODEL");
         StdinRead;
         Getenv OPENAI_API_KEY;
         Post (request_of (ustr "hello") (ustr "sk-test") (ustr "gpt-4.1-mini") 0%float);
         Write Stdout (ustr "hello" ++ [10%N])]).
Proof. reflexivity. Qed.

(** A timeout: the transport diagnostic, nothing on standard output. *)
Example run_world_timeout :
  exit_status world_timeout = 1 /\
  stdout world_timeout = [] /\
  stderr world_timeout
  = ustr "Ошибка запроса: Read timed out. (read timeout=60)" ++ [10%N].
Proof. repeat split. Qed.

(** [raise_for_status] lets the status 399 through: the body is decoded as
    for a 200. *)
Example run_world_399 :
  exit_status world_399 = 0 /\ stdout world_399 = ustr "abc" ++ [10%N].
Proof. repeat split. Qed.

(** A [null] content: [None.strip()] raises [AttributeError], which no
    [except] clause of [main] matches. *)
Example run_world_null_content :
  exit_status world_null_content = 1 /\
  tracebacks (snd (run world_null_content)) = [AttributeError] /\
  stderr world_null_content = [].
Proof. repeat split. Qed.

End SampleRuns.

(** * The claims *)

Import Py Requests Runtime Spellcheck Outcome PyFacts ClientFacts DriverFacts RunFacts.

#[local] Arguments call_openai : simpl never.
#[local] Arguments MSG_HTTP : simpl never.
#[local] Arguments MSG_REQUEST : simpl never.
#[local] Arguments MSG_RESPONSE : simpl never.
#[local] Arguments strip : simpl never.

(** Standard output and standard error of a run whose trace is known. *)
Ltac known_run Hrun :=
  unfold stdout, stderr, exit_status;
  rewrite Hrun; cbn [fst snd];
  rewrite ?written_app, ?posts_app, ?env_lookups_app, ?stdin_reads_app;
  cbn [written posts env_lookups stdin_reads report status_of stream_eqb];
  rewrite ?app_nil_r.

(** C1. [build_payload] is a total function of its three arguments (it does
    not live in the monad of effects, so it reads and writes nothing and
    raises nothing); the dictionary it returns has the arguments under
    ["model"] and ["temperature"], and under ["messages"] a list of exactly
    two dictionaries: role ["system"] with the fixed [SYSTEM_PROMPT], then
    role ["user"] with the input text. *)
Theorem build_payload_two_messages (text model : str) (temperature : float) :
  exists (d m1 m2 : gmap str value),
    build_payload text model temperature = VDict d /\
    d !! ustr "model" = Some (VStr model) /\
    d !! ustr "temperature" = Some (VFloat temperature) /\
    d !! ustr "messages" = Some (VList [VDict m1; VDict m2]) /\
    size d = 3%nat /\
    m1 !! ustr "role" = Some (VStr (ustr "system")) /\
    m1 !! ustr "content" = Some (VStr SYSTEM_PROMPT) /\
    size m1 = 2%nat /\
    m2 !! ustr "role" = Some (VStr (ustr "user")) /\
    m2 !! ustr "content" = Some (VStr text) /\
    size m2 = 2%nat.
Proof.
  unfold build_payload.
  eexists _, _, _. split; [reflexivity|].
  repeat split; vm_compute; reflexivity.
Qed.

(** C2, as amended.  A non-empty text argument (whitespace-only included) is
    the resolved text as it stands, and resolving it leaves standard input
    and the trace untouched; when the argument is absent or is the empty
    string, standard input is read to its end and the stripped content is
    the resolved text.  For a whole run: standard input is read once in the
    second case and never in the first. *)
Theorem input_resolver_contract (args : Namespace) (w : World) (s : State) :
  (forall t, ns_text args = Some t -> t <> [] -> resolve_text args w s = (Val t, s)) /\
  (ns_text args = None \/ ns_text args = Some [] ->
   resolve_text args w s
   = (Val (strip (unread s)), {| unread := []; trace := trace s ++ [StdinRead] |})) /\
  (forall o, argv w = ArgvOptions o ->
   stdin_reads (snd (run w)) = if truthy_opt (opt_text o) then O else 1%nat).
Proof.
  unfold resolve_text. split; [|split].
  - intros t Ht Hne. rewrite Ht. destruct t; [congruence|reflexivity].
  - intros [Ht|Ht]; rewrite Ht; reflexivity.
  - intros o Ha.
    destruct (prelude_silent o Stdout) as (_ & _ & _ & Hp).
    destruct (run_options_cases w o Ha)
      as [(_ & Hrun)|[(_ & _ & Hrun)|(key & res & _ & _ & _ & _ & _ & Hrun)]];
      rewrite Hrun; cbn [snd]; rewrite !stdin_reads_app, Hp.
    + simpl. lia.
    + simpl. lia.
    + rewrite report_stdin_reads. simpl. lia.
Qed.

Lemma input_resolver_contract_witness :
  resolve_text (namespace_of world_ok (mkOptions (Some (ustr "Привет как дела")) None None))
    world_ok (init world_ok)
  = (Val (ustr "Привет как дела"), init world_ok) /\
  resolve_text (namespace_of world_empty_argument (mkOptions (Some []) None None))
    world_empty_argument (init world_empty_argument)
  = (Val (ustr "hello"), {| unread := []; trace := [StdinRead] |}) /\
  stdin_reads (snd (run world_ok)) = O /\
  stdin_reads (snd (run world_empty_argument)) = 1%nat.
Proof.
  split; [|split; [|split]].
  - apply (proj1 (input_resolver_contract _ world_ok (init world_ok))
             (ustr "Привет как дела")).
    + reflexivity.
    + discriminate.
  - apply (proj1 (proj2 (input_resolver_contract _ world_empty_argument
                           (init world_empty_argument)))).
    right. reflexivity.
  - apply (proj2 (proj2 (input_resolver_contract
                           (namespace_of world_ok (mkOptions None None None))
                           world_ok (init world_ok)))
             (mkOptions (Some (ustr "Привет как дела")) None None)).
    reflexivity.
  - apply (proj2 (proj2 (input_resolver_contract
                           (namespace_of world_ok (mkOptions None None None))
                           world_empty_argument (init world_empty_argument)))
             (mkOptions (Some []) None None)).
    reflexivity.
Defined.

(** C2 as stated fails: with [-t] given the empty string, the argument is
    not the resolved text and standard input is consumed. *)
Lemma empty_argument_reads_stdin :
  ~ argument_verbatim
      (namespace_of world_empty_argument (mkOptions (Some []) None None))
      world_empty_argument (init world_empty_argument).
Proof.
  intros H. specialize (H [] eq_refl). vm_compute in H. discriminate H.
Qed.

(** C3, as amended.  Whenever the Completion Client returns normally in a
    run and standard output can encode the text it returned, the response
    it received has a [str] under
    [data["choices"][0]["message"]["content"]], the value returned is that
    content stripped of leading and trailing whitespace, standard output is
    exactly this value followed by one newline, and the exit status is 0. *)
Theorem success_prints_trimmed_content (w : World) (corrected : str) :
  client_returned w corrected ->
  forallb (stdout_encodable w) corrected = true ->
  (exists (req : Request) (r : Response) (d ch m : gmap str value)
          (rest : list value) (content : str),
      In req (posts (snd (run w))) /\
      network w req = PostReturns r /\
      json_result r = JsonValue (VDict d) /\
      d !! ustr "choices" = Some (VList (VDict ch :: rest)) /\
      ch !! ustr "message" = Some (VDict m) /\
      m !! ustr "content" = Some (VStr content) /\
      corrected = strip content /\
      exists pre post,
        content = pre ++ corrected ++ post /\ all_space pre /\ all_space post) /\
  trimmed corrected /\
  stdout w = corrected ++ [10%N] /\
  exit_status w = 0.
Proof.
  intros (text & key & model & temperature & s & s' & Hin & Hcall) Henc.
  destruct (call_openai_returns_inv _ _ _ _ _ _ _ _ Hcall)
    as (r & d & ch & m & rest & content & Hn & _ & Hj & Hd & Hch & Hm & ->).
  destruct (run_posts_inv w _ Hin)
    as (o & key0 & res & Ha & Hr & Hk & Hkey & Hreq & Hexit & Hres & Hrun).
  assert (Hval : res = Val (strip content)).
  { pose proof (call_openai_determined _ _ _ _ _ _ _ _ w s s Hreq) as Hd'.
    rewrite Hcall, Hres in Hd'. simpl in Hd'. congruence. }
  subst res.
  unfold status_of, report in Hrun. rewrite Henc in Hrun.
  split; [|split; [|split]].
  - exists (request_of text key model temperature), r, d, ch, m, rest, content.
    repeat split; try assumption. apply strip_split.
  - apply strip_trimmed.
  - known_run Hrun.
    destruct (prelude_silent o Stdout) as (-> & _). reflexivity.
  - known_run Hrun. reflexivity.
Qed.

Lemma success_prints_trimmed_content_witness :
  stdout world_ok = ustr "Привет, как дела?" ++ [10%N] /\ exit_status world_ok = 0.
Proof.
  refine (let H := success_prints_trimmed_content world_ok (ustr "Привет, как дела?") _ _
          in conj (proj1 (proj2 (proj2 H))) (proj2 (proj2 (proj2 H)))).
  - exists (ustr "Привет как дела"), (ustr "sk-test"), (ustr "gpt-4.1-mini"), 0%float.
    exists (init world_ok).
    eexists. split.
    + left. reflexivity.
    + reflexivity.
  - reflexivity.
Defined.

(** C3 as stated fails when standard output cannot encode the text: the
    content is the lone surrogate U+D800 and standard output is UTF-8.  The
    client returns it, [print(corrected)] raises [UnicodeEncodeError]
    outside the [try], nothing reaches standard output and the exit status
    is 1. *)
Lemma unencodable_text_is_not_printed :
  client_returned world_surrogate [55296%N] /\
  stdout world_surrogate = [] /\
  exit_status world_surrogate = 1 /\
  ~ success_printed world_surrogate.
Proof.
  assert (Hc : client_returned world_surrogate [55296%N]).
  { exists (ustr "abc"), (ustr "sk-test"), (ustr "gpt-4.1-mini"), 0%float.
    exists (init world_surrogate).
    eexists. split.
    - left. reflexivity.
    - reflexivity. }
  split; [exact Hc|]. split; [reflexivity|]. split; [reflexivity|].
  intros H. destruct (H _ Hc) as (_ & Hexit).
  vm_compute in Hexit. discriminate Hexit.
Qed.

(** C4. When no text argument is given, or an empty one, and standard input
    holds nothing but whitespace, the run writes the "no text" diagnostic
    (and only it) to standard error, exits with status 1, and sends no
    request. *)
Theorem no_text_exits_early (w : World) (o : Options) :
  argv w = ArgvOptions o ->
  opt_text o = None \/ opt_text o = Some [] ->
  strip (stdin w) = [] ->
  stderr w = MSG_NO_TEXT ++ [10%N] /\
  exit_status w = 1 /\
  posts (snd (run w)) = [] /\
  stdout w = [].
Proof.
  intros Ha Ht Hs.
  assert (Hr : resolved w o = []).
  { unfold resolved. destruct Ht as [-> | ->]; exact Hs. }
  pose proof (run_no_text w o Ha Hr) as Hrun.
  destruct (prelude_silent o Stdout) as (Hout & Hp & _).
  destruct (prelude_silent o Stderr) as (Herr & _).
  repeat split; known_run Hrun; rewrite ?Hout, ?Herr, ?Hp; reflexivity.
Qed.

Lemma no_text_exits_early_witness :
  stderr world_no_text = MSG_NO_TEXT ++ [10%N] /\
  exit_status world_no_text = 1 /\
  posts (snd (run world_no_text)) = [] /\
  stdout world_no_text = [].
Proof.
  apply (no_text_exits_early world_no_text (mkOptions None None None)).
  - reflexivity.
  - left. reflexivity.
  - reflexivity.
Defined.

(** C5. When the resolved text is not empty and [OPENAI_API_KEY] is unset or
    set to the empty string, the run writes the "missing credential"
    diagnostic (and only it) to standard error, exits with status 1, and
    sends no request. *)
Theorem missing_credential_exits_early (w : World) (o : Options) :
  argv w = ArgvOptions o ->
  resolved w o <> [] ->
  environ w !! OPENAI_API_KEY = None \/ environ w !! OPENAI_API_KEY = Some [] ->
  stderr w = MSG_NO_KEY ++ [10%N] /\
  exit_status w = 1 /\
  posts (snd (run w)) = [] /\
  stdout w = [].
Proof.
  intros Ha Hr Hk.
  assert (Hk' : truthy_opt (environ w !! OPENAI_API_KEY) = false).
  { destruct Hk as [-> | ->]; reflexivity. }
  pose proof (run_no_key w o Ha Hr Hk') as Hrun.
  destruct (prelude_silent o Stdout) as (Hout & Hp & _).
  destruct (prelude_silent o Stderr) as (Herr & _).
  repeat split; known_run Hrun; rewrite ?Hout, ?Herr, ?Hp; reflexivity.
Qed.

Lemma missing_credential_exits_early_witness :
  stderr world_no_key = MSG_NO_KEY ++ [10%N] /\
  exit_status world_no_key = 1 /\
  posts (snd (run world_no_key)) = [] /\
  stdout world_no_key = [].
Proof.
  apply (missing_credential_exits_early world_no_key
           (mkOptions (Some (ustr "abc")) None None)).
  - reflexivity.
  - discriminate.
  - right. reflexivity.
Defined.

(** C6, as amended.  When the request of a run is answered with a status
    that [raise_for_status] treats as an error (400..599, as 401), the client
    call that sent it raises [HTTPError] carrying that response; standard
    error is the line made of the HTTP prefix, the status code in decimal, a
    space and the response body; nothing is written to standard output; the
    exit status is 1. *)
Theorem http_error_reported (w : World) (req : Request) (r : Response) :
  In req (posts (snd (run w))) ->
  network w req = PostReturns r ->
  is_error_status (status_code r) = true ->
  (exists text key model temperature,
      req = request_of text key model temperature /\
      forall s, call_openai text key model temperature w s
                = (Exc (HTTPError r), log (Post req) s)) /\
  stderr w = ustr "Ошибка HTTP: " ++ str_of_int (status_code r) ++ ustr " "
             ++ text r ++ [10%N] /\
  stdout w = [] /\
  exit_status w = 1.
Proof.
  intros Hin Hn He.
  destruct (run_posts_inv w _ Hin)
    as (o & key & res & Ha & Hr & Hk & Hkey & Hreq & Hexit & Hres & Hrun).
  assert (Hval : res = Exc (HTTPError r)).
  { rewrite Hreq in Hn.
    pose proof (call_openai_http_error _ _ _ _ w (init w) r Hn He) as Hc.
    rewrite Hres in Hc. congruence. }
  subst res.
  destruct (prelude_silent o Stdout) as (Hout & _).
  destruct (prelude_silent o Stderr) as (Herr & _).
  split; [|split; [|split]].
  - eexists _, _, _, _. split; [exact Hreq|]. intros s.
    rewrite Hres. reflexivity.
  - known_run Hrun. rewrite Herr. unfold MSG_HTTP.
    rewrite <- !app_assoc. reflexivity.
  - known_run Hrun. rewrite Hout. reflexivity.
  - known_run Hrun. reflexivity.
Qed.

Lemma http_error_reported_witness :
  stderr world_401 = ustr "Ошибка HTTP: 401 denied" ++ [10%N] /\
  stdout world_401 = [] /\
  exit_status world_401 = 1.
Proof.
  refine (proj2 (http_error_reported world_401
            (request_of (ustr "abc") (ustr "sk-test") (ustr "gpt-4.1-mini") 0%float)
            (mkResponse 401 (ustr "denied") (JsonValue VNone)) _ _ _)).
  - left. reflexivity.
  - reflexivity.
  - reflexivity.
Defined.

(** C6 as stated fails for a status that is not a success and not in
    400..599: [raise_for_status] lets 399 through, the body is decoded, the
    text is printed and the exit status is 0. *)
Lemma status_399_is_not_an_http_error :
  non_success 399 = true /\
  stdout world_399 = ustr "abc" ++ [10%N] /\
  stderr world_399 = [] /\
  exit_status world_399 = 0 /\
  ~ non_success_reported world_399.
Proof.
  repeat split.
  intros H.
  destruct (H (request_of (ustr "abc") (ustr "sk-test") (ustr "gpt-4.1-mini") 0%float)
              (mkResponse 399 [] (json_result (completion (VStr (ustr "abc"))))))
    as (_ & _ & Hexit).
  - left. reflexivity.
  - reflexivity.
  - reflexivity.
  - vm_compute in Hexit. discriminate Hexit.
Qed.

(** X1. A transport failure (the third failure kind of the client): the
    request raised a [RequestException] with text [msg]; the driver prints
    the transport diagnostic and exits with status 1. *)
Lemma transport_error_reported (w : World) (req : Request) (msg : str) :
  In req (posts (snd (run w))) ->
  network w req = PostRaises msg ->
  stderr w = ustr "Ошибка запроса: " ++ msg ++ [10%N] /\
  stdout w = [] /\
  exit_status w = 1.
Proof.
  intros Hin Hn.
  destruct (run_posts_inv w _ Hin)
    as (o & key & res & Ha & Hr & Hk & Hkey & Hreq & Hexit & Hres & Hrun).
  assert (Hval : res = Exc (RequestException msg)).
  { rewrite Hreq in Hn.
    pose proof (call_openai_transport _ _ _ _ w (init w) msg Hn) as Hc.
    rewrite Hres in Hc. congruence. }
  subst res.
  destruct (prelude_silent o Stdout) as (Hout & _).
  destruct (prelude_silent o Stderr) as (Herr & _).
  repeat split; known_run Hrun; rewrite ?Hout, ?Herr;
    unfold MSG_REQUEST; rewrite <- ?app_assoc; reflexivity.
Qed.

(** The part of C7 that holds: a 200 response without ["choices"], or with
    an empty ["choices"] list, makes the client raise [KeyError] or
    [IndexError], and the driver prints the malformed-response diagnostic
    and exits with status 1. *)
Lemma missing_key_reported (w : World) (req : Request) (r : Response)
    (d : gmap str value) :
  In req (posts (snd (run w))) ->
  network w req = PostReturns r ->
  is_error_status (status_code r) = false ->
  json_result r = JsonValue (VDict d) ->
  d !! ustr "choices" = None \/ d !! ustr "choices" = Some (VList []) ->
  exists exc,
    (exc = KeyError (KStr (ustr "choices")) \/
     exc = IndexError (ustr "list index out of range")) /\
    stderr w = ustr "Ошибка ответа API: " ++ str_of_exn exc ++ [10%N] /\
    stdout w = [] /\
    exit_status w = 1.
Proof.
  intros Hin Hn He Hj Hd.
  destruct (run_posts_inv w _ Hin)
    as (o & key & res & Ha & Hr & Hk & Hkey & Hreq & Hexit & Hres & Hrun).
  destruct (prelude_silent o Stdout) as (Hout & _).
  destruct (prelude_silent o Stderr) as (Herr & _).
  rewrite Hreq in Hn.
  pose proof (Hres (init w)) as Hc.
  unfold call_openai, requests_post, raise_for_status, json, subscript, raise in Hc.
  unfold mbind, M_bind, mret, M_ret in Hc.
  match type of Hn with network w ?q = _ => fold q in Hc end.
  rewrite Hn, He, Hj in Hc.
  destruct Hd as [Hd|Hd]; rewrite Hd in Hc; injection Hc as <- _.
  - exists (KeyError (KStr (ustr "choices"))). split; [left; reflexivity|].
    repeat split; known_run Hrun; rewrite ?Hout, ?Herr;
      unfold MSG_RESPONSE; rewrite <- ?app_assoc; reflexivity.
  - exists (IndexError (ustr "list index out of range")). split; [right; reflexivity|].
    repeat split; known_run Hrun; rewrite ?Hout, ?Herr;
      unfold MSG_RESPONSE; rewrite <- ?app_assoc; reflexivity.
Qed.

(** C7, the defect.  The endpoint answers 200 with the body
    [{"choices": null}]: [data["choices"][0]] raises [TypeError], none of
    the three [except] clauses of [main] matches, and the exception leaves
    [main].  The program itself writes nothing to standard error (no
    malformed-response diagnostic); the interpreter reports the uncaught
    exception and exits with status 1. *)
Theorem null_choices_escapes_handlers :
  fst (script world_null_choices (init world_null_choices)) = Exc TypeError /\
  tracebacks (snd (run world_null_choices)) = [TypeError] /\
  stderr world_null_choices = [] /\
  stdout world_null_choices = [] /\
  exit_status world_null_choices = 1.
Proof. repeat split; vm_compute; reflexivity. Qed.

(** C8. One call of the client, whatever its outcome, adds exactly one
    event to the trace: a POST to the fixed [https] URL with the bearer
    credential, the JSON content type, the serialised payload and a timeout
    of 60.  A whole run sends at most one request. *)
Theorem single_post_per_call (text key model : str) (temperature : float)
    (w : World) (s : State) :
  (exists (req : Request) (res : result str),
      call_openai text key model temperature w s
      = (res, {| unread := unread s; trace := trace s ++ [Post req] |}) /\
      url req = API_URL /\
      take 8 (url req) = ustr "https://" /\
      headers req !! ustr "Authorization" = Some (ustr "Bearer " ++ key) /\
      headers req !! ustr "Content-Type" = Some (ustr "application/json") /\
      size (headers req) = 2%nat /\
      data req = json_dumps (build_payload text model temperature) /\
      timeout req = 60) /\
  (length (posts (snd (run w))) <= 1)%nat.
Proof.
  split.
  - destruct (call_openai_post text key model temperature w) as (res & _ & Hres).
    exists (request_of text key model temperature), res.
    split; [apply Hres|].
    repeat split; vm_compute; reflexivity.
  - destruct (argv w) as [o|h|u] eqn:Ha.
    + destruct (prelude_silent o Stdout) as (_ & Hp & _).
      destruct (run_options_cases w o Ha)
        as [(_ & Hrun)|[(_ & _ & Hrun)|(k & res & _ & _ & _ & _ & _ & Hrun)]];
        rewrite Hrun; cbn [snd]; rewrite !posts_app, Hp, ?report_posts; simpl; lia.
    + rewrite (run_help w h Ha). simpl. lia.
    + rewrite (run_usage w u Ha). simpl. lia.
Qed.

(** C9, as amended.  For every run whose command line the argument parser
    accepts: either the exit status is 0 and standard output is exactly the
    text the client returned followed by a newline, or the exit status is 1
    and standard output is empty. *)
Theorem no_partial_success_when_parsed (w : World) (o : Options) :
  argv w = ArgvOptions o -> no_partial_success w.
Proof.
  intros Ha. unfold no_partial_success.
  destruct (prelude_silent o Stdout) as (Hout & _).
  destruct (run_options_cases w o Ha)
    as [(_ & Hrun)|[(_ & _ & Hrun)|(key & res & _ & _ & _ & Hexit & Hres & Hrun)]].
  - right. split; known_run Hrun; rewrite ?Hout; reflexivity.
  - right. split; known_run Hrun; rewrite ?Hout; reflexivity.
  - destruct res as [corrected|e].
    + unfold status_of, report in Hrun.
      destruct (forallb (stdout_encodable w) corrected).
      * left. split; [known_run Hrun; reflexivity|].
        exists corrected. split.
        -- eexists _, _, _, _, (init w), _. split; [|apply Hres].
           rewrite Hrun. cbn [snd]. rewrite !posts_app. apply in_or_app. right.
           left. reflexivity.
        -- known_run Hrun. rewrite Hout. reflexivity.
      * right. split; known_run Hrun; rewrite ?Hout; reflexivity.
    + right. split.
      * known_run Hrun. destruct e; try reflexivity. destruct (Hexit code eq_refl).
      * known_run Hrun. rewrite Hout. destruct e; reflexivity.
Qed.

Lemma no_partial_success_when_parsed_witness :
  no_partial_success world_ok /\ no_partial_success world_null_choices.
Proof.
  split.
  - apply (no_partial_success_when_parsed world_ok
             (mkOptions (Some (ustr "Привет как дела")) None None)).
    reflexivity.
  - apply (no_partial_success_when_parsed world_null_choices
             (mkOptions (Some (ustr "abc")) None None)).
    reflexivity.
Defined.

(** C9 as stated fails on command lines the parser does not accept: a usage
    error exits with status 2, and [--help] exits with status 0 after
    printing the help text, which no client returned. *)
Lemma usage_error_and_help_break_dichotomy :
  ~ no_partial_success world_usage /\ ~ no_partial_success world_help.
Proof.
  split.
  - intros [(H & _)|(H & _)]; vm_compute in H; discriminate H.
  - intros [(_ & c & (t & k & m & f & s & s' & Hin & _) & _)|(H & _)].
    + vm_compute in Hin. exact Hin.
    + vm_compute in H. discriminate H.
Qed.

(** C10. When the resolved text is empty and the credential is unset or
    empty, the diagnostic on standard error is the "no text" one, and
    [OPENAI_API_KEY] is not among the environment variables the run looked
    up. *)
Theorem empty_input_checked_first (w : World) (o : Options) :
  argv w = ArgvOptions o ->
  opt_text o = None \/ opt_text o = Some [] ->
  strip (stdin w) = [] ->
  environ w !! OPENAI_API_KEY = None \/ environ w !! OPENAI_API_KEY = Some [] ->
  stderr w = MSG_NO_TEXT ++ [10%N] /\
  env_lookups (snd (run w)) = [ustr "OPENAI_MODEL"] /\
  ~ In OPENAI_API_KEY (env_lookups (snd (run w))) /\
  exit_status w = 1.
Proof.
  intros Ha Ht Hs _.
  assert (Hr : resolved w o = []).
  { unfold resolved. destruct Ht as [-> | ->]; exact Hs. }
  pose proof (run_no_text w o Ha Hr) as Hrun.
  destruct (prelude_silent o Stderr) as (Herr & _ & Henv & _).
  assert (Hl : env_lookups (snd (run w)) = [ustr "OPENAI_MODEL"]).
  { rewrite Hrun. cbn [snd]. rewrite env_lookups_app, Henv. reflexivity. }
  split; [|split; [|split]].
  - known_run Hrun. rewrite Herr. reflexivity.
  - exact Hl.
  - rewrite Hl. intros [H|[]]. discriminate H.
  - known_run Hrun. reflexivity.
Qed.

Lemma empty_input_checked_first_witness :
  stderr world_no_text = MSG_NO_TEXT ++ [10%N] /\
  env_lookups (snd (run world_no_text)) = [ustr "OPENAI_MODEL"] /\
  ~ In OPENAI_API_KEY (env_lookups (snd (run world_no_text))) /\
  exit_status world_no_text = 1.
Proof.
  apply (empty_input_checked_first world_no_text (mkOptions None None None)).
  - reflexivity.
  - left. reflexivity.
  - reflexivity.
  - left. reflexivity.
Defined.

(** * Further properties of the code *)

(** The outcome of the client call of a run, read off the response: [Hres]
    is the equation of [run_posts_inv] and [tac] rewrites the response. *)
Ltac client_result Hres w tac :=
  let Hc := fresh "Hc" in
  pose proof (Hres (init w)) as Hc;
  unfold call_openai, requests_post, raise_for_status, json, subscript,
    method_strip, raise in Hc;
  unfold mbind, M_bind, mret, M_ret in Hc;
  tac Hc;
  injection Hc as <- _.

Lemma reports_app (t1 t2 : list event) :
  reports (t1 ++ t2) = (reports t1 + reports t2)%nat.
Proof.
  induction t1 as [|e t1 IH]; [reflexivity|].
  destruct e; simpl; rewrite ?IH; reflexivity.
Qed.

Lemma report_env_lookups (w : World) (res : result str) :
  env_lookups (report w res) = [].
Proof.
  destruct res as [c|[]]; try reflexivity.
  simpl. destruct (forallb (stdout_encodable w) c); reflexivity.
Qed.

Lemma transport_error_reported_witness :
  stderr world_timeout
  = ustr "Ошибка запроса: Read timed out. (read timeout=60)" ++ [10%N] /\
  stdout world_timeout = [] /\
  exit_status world_timeout = 1.
Proof.
  apply (transport_error_reported world_timeout
           (request_of (ustr "abc") (ustr "sk-test") (ustr "gpt-4.1-mini") 0%float)
           (ustr "Read timed out. (read timeout=60)")).
  - left. reflexivity.
  - reflexivity.
Defined.

(** X2. A 200 response whose JSON object has no ["choices"], or has an
    empty list or an object under it: the subscript raises [KeyError] or
    [IndexError], and the driver prints the response diagnostic followed by
    the text of the exception (the quoted key, [list index out of range], or
    the index 0), exits with status 1 and leaves standard output empty. *)
Theorem choices_missing_or_empty_reported (w : World) (req : Request)
    (r : Response) (d : gmap str value) (detail : str) :
  In req (posts (snd (run w))) ->
  network w req = PostReturns r ->
  is_error_status (status_code r) = false ->
  json_result r = JsonValue (VDict d) ->
  (d !! ustr "choices" = None /\ detail = ustr "'choices'") \/
  (d !! ustr "choices" = Some (VList []) /\ detail = ustr "list index out of range") \/
  (exists c : gmap str value,
      d !! ustr "choices" = Some (VDict c) /\ detail = ustr "0") ->
  stderr w = ustr "Ошибка ответа API: " ++ detail ++ [10%N] /\
  stdout w = [] /\
  exit_status w = 1.
Proof.
  intros Hin Hn He Hj Hcases.
  destruct (run_posts_inv w _ Hin)
    as (o & key & res & Ha & Hr & Hk & Hkey & Hreq & Hexit & Hres & Hrun).
  destruct (prelude_silent o Stdout) as (Hout & _).
  destruct (prelude_silent o Stderr) as (Herr & _).
  rewrite Hreq in Hn.
  destruct Hcases as [(Hd & ->)|[(Hd & ->)|(c & Hd & ->)]];
    client_result Hres w
      ltac:(fun H => match type of Hn with network w ?q = _ => fold q in H end;
                     rewrite Hn, He, Hj, Hd, ?index_0_nil in H);
    repeat split; known_run Hrun; rewrite ?Hout, ?Herr; reflexivity.
Qed.

Lemma choices_missing_or_empty_reported_witness :
  stderr world_empty_body = ustr "Ошибка ответа API: 'choices'" ++ [10%N] /\
  stdout world_empty_body = [] /\
  exit_status world_empty_body = 1.
Proof.
  apply (choices_missing_or_empty_reported world_empty_body
           (request_of (ustr "abc") (ustr "sk-test") (ustr "gpt-4.1-mini") 0%float)
           (mkResponse 200 (ustr "{}") (JsonValue (VDict ∅))) ∅ (ustr "'choices'")).
  - left. reflexivity.
  - reflexivity.
  - reflexivity.
  - reflexivity.
  - left. split; reflexivity.
Defined.

(** X3. A 200 response whose first choice has no ["message"], or whose
    message has no ["content"], makes the subscript raise [KeyError] with
    that key; the driver prints the response diagnostic with the quoted key
    and exits with status 1, nothing on standard output. *)
Theorem nested_key_missing_reported (w : World) (req : Request) (r : Response)
    (d ch : gmap str value) (rest : list value) (k : str) :
  In req (posts (snd (run w))) ->
  network w req = PostReturns r ->
  is_error_status (status_code r) = false ->
  json_result r = JsonValue (VDict d) ->
  d !! ustr "choices" = Some (VList (VDict ch :: rest)) ->
  (ch !! ustr "message" = None /\ k = ustr "message") \/
  (exists m : gmap str value,
      ch !! ustr "message" = Some (VDict m) /\
      m !! ustr "content" = None /\ k = ustr "content") ->
  stderr w = ustr "Ошибка ответа API: '" ++ k ++ ustr "'" ++ [10%N] /\
  stdout w = [] /\
  exit_status w = 1.
Proof.
  intros Hin Hn He Hj Hd Hk'.
  destruct (run_posts_inv w _ Hin)
    as (o & key & res & Ha & Hr & Hk & Hkey & Hreq & Hexit & Hres & Hrun).
  destruct (prelude_silent o Stdout) as (Hout & _).
  destruct (prelude_silent o Stderr) as (Herr & _).
  rewrite Hreq in Hn.
  destruct Hk' as [(Hch & ->)|(m & Hch & Hm & ->)].
  - client_result Hres w
      ltac:(fun H => match type of Hn with network w ?q = _ => fold q in H end;
                     rewrite Hn, He, Hj, Hd, index_0_cons, Hch in H).
    repeat split; known_run Hrun; rewrite ?Hout, ?Herr; reflexivity.
  - client_result Hres w
      ltac:(fun H => match type of Hn with network w ?q = _ => fold q in H end;
                     rewrite Hn, He, Hj, Hd, index_0_cons, Hch, Hm in H).
    repeat split; known_run Hrun; rewrite ?Hout, ?Herr; reflexivity.
Qed.

Lemma nested_key_missing_reported_witness :
  stderr world_no_message = ustr "Ошибка ответа API: 'message'" ++ [10%N] /\
  stdout world_no_message = [] /\
  exit_status world_no_message = 1.
Proof.
  apply (nested_key_missing_reported world_no_message
           (request_of (ustr "abc") (ustr "sk-test") (ustr "gpt-4.1-mini") 0%float)
           (mkResponse 200 [] (JsonValue (VDict {[ ustr "choices" := VList [VDict ∅] ]})))
           {[ ustr "choices" := VList [VDict ∅] ]} ∅ [] (ustr "message")).
  - left. reflexivity.
  - reflexivity.
  - reflexivity.
  - reflexivity.
  - reflexivity.
  - left. split; reflexivity.
Defined.

(** X4. When the command line is accepted, the resolved text is not empty
    and [OPENAI_API_KEY] holds a non-empty value, the run sends exactly one
    request: to [API_URL], with the credential of the environment behind
    [Bearer ] in the [Authorization] header, and with the resolved text as
    the content of the user message, unchanged (an argument of whitespace
    only is sent as it is). *)
Theorem request_carries_text_and_credential (w : World) (o : Options) (key : str) :
  argv w = ArgvOptions o ->
  resolved w o <> [] ->
  environ w !! OPENAI_API_KEY = Some key ->
  key <> [] ->
  exists (req : Request) (model : str) (temperature : float)
         (d system user : gmap str value),
    posts (snd (run w)) = [req] /\
    url req = API_URL /\
    headers req !! ustr "Authorization" = Some (ustr "Bearer " ++ key) /\
    data req = json_dumps (build_payload (resolved w o) model temperature) /\
    build_payload (resolved w o) model temperature = VDict d /\
    d !! ustr "messages" = Some (VList [VDict system; VDict user]) /\
    user !! ustr "content" = Some (VStr (resolved w o)) /\
    (forall t, opt_text o = Some t -> t <> [] -> resolved w o = t).
Proof.
  intros Ha Hr Hk Hkey.
  set (args := namespace_of w o).
  destruct (call_openai_post (resolved w o) key (ns_model args) (ns_temperature args) w)
    as (res & _ & Hres).
  pose proof (run_client w o Ha key res Hr Hk Hkey Hres) as Hrun.
  destruct (prelude_silent o Stdout) as (_ & Hp & _).
  eexists (request_of (resolved w o) key (ns_model args) (ns_temperature args)),
    (ns_model args), (ns_temperature args), _, _, _.
  split; [|split; [|split; [|split; [|split; [|split; [|split]]]]]].
  - rewrite Hrun. cbn [snd]. rewrite !posts_app, Hp, report_posts. reflexivity.
  - reflexivity.
  - vm_compute. reflexivity.
  - reflexivity.
  - reflexivity.
  - vm_compute. reflexivity.
  - vm_compute. reflexivity.
  - intros t Ht Hne. unfold resolved. rewrite Ht.
    destruct t; [congruence|reflexivity].
Qed.

Lemma request_carries_text_and_credential_witness :
  exists (req : Request) (model : str) (temperature : float)
         (d system user : gmap str value),
    posts (snd (run world_ok)) = [req] /\
    url req = API_URL /\
    headers req !! ustr "Authorization" = Some (ustr "Bearer sk-test") /\
    data req = json_dumps (build_payload (ustr "Привет как дела") model temperature) /\
    build_payload (ustr "Привет как дела") model temperature = VDict d /\
    d !! ustr "messages" = Some (VList [VDict system; VDict user]) /\
    user !! ustr "content" = Some (VStr (ustr "Привет как дела")) /\
    (forall t, Some (ustr "Привет как дела") = Some t -> t <> [] ->
               ustr "Привет как дела" = t).
Proof.
  apply (request_carries_text_and_credential world_ok
           (mkOptions (Some (ustr "Привет как дела")) None None) (ustr "sk-test")).
  - reflexivity.
  - discriminate.
  - reflexivity.
  - discriminate.
Defined.

(** X5. The model and the temperature of a request: the [-m] option if
    given, else the value of [OPENAI_MODEL] if the variable is set (the
    empty string included), else [gpt-4.1-mini]; the [--temperature] option
    if given, else 0.0. *)
Theorem request_model_and_temperature (w : World) (o : Options) (req : Request) :
  argv w = ArgvOptions o ->
  In req (posts (snd (run w))) ->
  exists text : str,
    data req
    = json_dumps
        (build_payload text
           match opt_model o with
           | Some m => m
           | None =>
               match environ w !! ustr "OPENAI_MODEL" with
               | Some m => m
               | None => ustr "gpt-4.1-mini"
               end
           end
           match opt_temperature o with
           | Some t => t
           | None => 0%float
           end).
Proof.
  intros Ha Hin.
  destruct (run_posts_inv w _ Hin)
    as (o' & key & res & Ha' & _ & _ & _ & Hreq & _).
  rewrite Ha in Ha'. injection Ha' as <-.
  exists (resolved w o). rewrite Hreq. unfold request_of, namespace_of. cbn [data ns_model ns_temperature].
  destruct (opt_model o), (environ w !! _), (opt_temperature o); reflexivity.
Qed.

Lemma request_model_and_temperature_witness :
  exists text : str,
    data (request_of (ustr "abc") (ustr "sk-test") (ustr "gpt-4o") 0.5%float)
    = json_dumps (build_payload text (ustr "gpt-4o") 0.5%float).
Proof.
  apply (request_model_and_temperature world_model_option
           (mkOptions None (Some (ustr "gpt-4o")) (Some 0.5%float))
           (request_of (ustr "abc") (ustr "sk-test") (ustr "gpt-4o") 0.5%float)).
  - reflexivity.
  - left. reflexivity.
Defined.

(** X6. [read_stdin] consumes all of standard input and returns it without
    its leading and trailing whitespace: the input is the result between
    two runs of whitespace, the result has no whitespace at either end, and
    it is empty exactly when the input is all whitespace. *)
Theorem read_stdin_trims_and_consumes (w : World) (s : State) :
  exists (r pre post : str),
    read_stdin w s = (Val r, {| unread := []; trace := trace s ++ [StdinRead] |}) /\
    unread s = pre ++ r ++ post /\
    all_space pre /\ all_space post /\
    trimmed r /\
    (r = [] <-> all_space (unread s)).
Proof.
  destruct (strip_split (unread s)) as (pre & post & Hs & Hpre & Hpost).
  exists (strip (unread s)), pre, post.
  repeat split; try assumption; try apply strip_trimmed; apply strip_nil_iff.
Qed.

(** X7. A run looks up [OPENAI_MODEL] first, whatever the command line, and
    after it at most [OPENAI_API_KEY], once; no other environment variable
    is consulted. *)
Theorem env_lookups_of_a_run (w : World) :
  env_lookups (snd (run w)) = [ustr "OPENAI_MODEL"] \/
  env_lookups (snd (run w)) = [ustr "OPENAI_MODEL"; OPENAI_API_KEY].
Proof.
  destruct (argv w) as [o|h|u] eqn:Ha.
  - destruct (prelude_silent o Stdout) as (_ & _ & Hp & _).
    destruct (run_options_cases w o Ha)
      as [(_ & Hrun)|[(_ & _ & Hrun)|(key & res & _ & _ & _ & _ & _ & Hrun)]];
      rewrite Hrun; cbn [snd]; rewrite !env_lookups_app, Hp, ?report_env_lookups.
    + left. reflexivity.
    + right. reflexivity.
    + right. reflexivity.
  - left. rewrite (run_help w h Ha). reflexivity.
  - left. rewrite (run_usage w u Ha). reflexivity.
Qed.

(** X8. A run never writes to both streams: standard output or standard
    error is empty; and with exit status 0 standard error is empty. *)
Theorem streams_are_exclusive (w : World) :
  (stdout w = [] \/ stderr w = []) /\ (exit_status w <> 0 \/ stderr w = []).
Proof.
  destruct (argv w) as [o|h|u] eqn:Ha.
  - destruct (prelude_silent o Stdout) as (Hout & _).
    destruct (prelude_silent o Stderr) as (Herr & _).
    destruct (run_options_cases w o Ha)
      as [(_ & Hrun)|[(_ & _ & Hrun)|(key & res & _ & _ & _ & Hexit & _ & Hrun)]].
    + split; left; known_run Hrun; rewrite ?Hout; [reflexivity|discriminate].
    + split; left; known_run Hrun; rewrite ?Hout; [reflexivity|discriminate].
    + destruct res as [c|e].
      * unfold status_of, report in Hrun.
        destruct (forallb (stdout_encodable w) c);
          split; right; known_run Hrun; rewrite Herr; reflexivity.
      * split; left; known_run Hrun; rewrite ?Hout.
        -- destruct e; reflexivity.
        -- destruct e; try discriminate. destruct (Hexit code eq_refl).
  - unfold stdout, stderr, exit_status. rewrite (run_help w h Ha).
    split; right; reflexivity.
  - unfold stdout, stderr, exit_status. rewrite (run_usage w u Ha).
    split; left; [reflexivity|discriminate].
Qed.

(** X9. The client returns normally exactly when the request is answered
    with a status outside 400..599 and a JSON object whose ["choices"] is a
    list whose first element is an object whose ["message"] is an object
    whose ["content"] is a [str]; the value returned is that content
    stripped.  Further choices and further keys are ignored. *)
Theorem call_openai_returns_iff (text key model : str) (temperature : float)
    (w : World) (s : State) (corrected : str) :
  (exists s', call_openai text key model temperature w s = (Val corrected, s'))
  <->
  (exists (r : Response) (d ch m : gmap str value) (rest : list value) (content : str),
      network w (request_of text key model temperature) = PostReturns r /\
      is_error_status (status_code r) = false /\
      json_result r = JsonValue (VDict d) /\
      d !! ustr "choices" = Some (VList (VDict ch :: rest)) /\
      ch !! ustr "message" = Some (VDict m) /\
      m !! ustr "content" = Some (VStr content) /\
      corrected = strip content).
Proof.
  split.
  - intros (s' & Hcall). exact (call_openai_returns_inv _ _ _ _ _ _ _ _ Hcall).
  - intros (r & d & ch & m & rest & content & Hn & He & Hj & Hd & Hch & Hm & ->).
    eexists. exact (call_openai_success _ _ _ _ w s r d ch m rest content
                      Hn He Hj Hd Hch Hm).
Qed.

(** X10. A response with a status outside 400..599 whose body is not JSON:
    [Response.json()] raises the [JSONDecodeError] of [requests], a
    [RequestException], so the driver prints the request diagnostic with the
    decoder's message and exits with status 1, nothing on standard
    output. *)
Theorem undecodable_body_reported (w : World) (req : Request) (r : Response)
    (msg : str) :
  In req (posts (snd (run w))) ->
  network w req = PostReturns r ->
  is_error_status (status_code r) = false ->
  json_result r = JsonDecodeError msg ->
  stderr w = ustr "Ошибка запроса: " ++ msg ++ [10%N] /\
  stdout w = [] /\
  exit_status w = 1.
Proof.
  intros Hin Hn He Hj.
  destruct (run_posts_inv w _ Hin)
    as (o & key & res & Ha & Hr & Hk & Hkey & Hreq & Hexit & Hres & Hrun).
  destruct (prelude_silent o Stdout) as (Hout & _).
  destruct (prelude_silent o Stderr) as (Herr & _).
  rewrite Hreq in Hn.
  client_result Hres w
    ltac:(fun H => match type of Hn with network w ?q = _ => fold q in H end;
                   rewrite Hn, He, Hj in H).
  repeat split; known_run Hrun; rewrite ?Hout, ?Herr; reflexivity.
Qed.

Lemma undecodable_body_reported_witness :
  stderr world_not_json
  = ustr "Ошибка запроса: Expecting value: line 1 column 1 (char 0)" ++ [10%N] /\
  stdout world_not_json = [] /\
  exit_status world_not_json = 1.
Proof.
  apply (undecodable_body_reported world_not_json
           (request_of (ustr "abc") (ustr "sk-test") (ustr "gpt-4.1-mini") 0%float)
           (mkResponse 200 (ustr "<html>")
              (JsonDecodeError (ustr "Expecting value: line 1 column 1 (char 0)")))
           (ustr "Expecting value: line 1 column 1 (char 0)")).
  - left. reflexivity.
  - reflexivity.
  - reflexivity.
  - reflexivity.
Defined.

(** X11. A response with a status outside 400..599 whose JSON body is not an
    object (an array, a string, a number, [true], [null]): [data["choices"]]
    raises [TypeError], which no [except] clause of [main] matches.  The
    program prints nothing on either stream; the interpreter reports the
    exception and the exit status is 1. *)
Theorem non_object_body_escapes (w : World) (req : Request) (r : Response)
    (v : value) :
  In req (posts (snd (run w))) ->
  network w req = PostReturns r ->
  is_error_status (status_code r) = false ->
  json_result r = JsonValue v ->
  (forall d, v <> VDict d) ->
  tracebacks (snd (run w)) = [TypeError] /\
  stderr w = [] /\
  stdout w = [] /\
  exit_status w = 1.
Proof.
  intros Hin Hn He Hj Hv.
  destruct (run_posts_inv w _ Hin)
    as (o & key & res & Ha & Hr & Hk & Hkey & Hreq & Hexit & Hres & Hrun).
  destruct (prelude_silent o Stdout) as (Hout & _).
  destruct (prelude_silent o Stderr) as (Herr & _).
  assert (Htb : tracebacks (prelude o) = []).
  { unfold prelude. destruct (truthy_opt (opt_text o)); reflexivity. }
  rewrite Hreq in Hn.
  assert (Hval : res = Exc TypeError).
  { pose proof (Hres (init w)) as Hc.
    unfold call_openai, requests_post, raise_for_status, json, subscript, raise in Hc.
    unfold mbind, M_bind, mret, M_ret in Hc.
    match type of Hn with network w ?q = _ => fold q in Hc end.
    rewrite Hn, He, Hj in Hc.
    destruct v; try (injection Hc as <- _; reflexivity).
    destruct (Hv d eq_refl). }
  subst res.
  split; [|repeat split; known_run Hrun; rewrite ?Hout, ?Herr; reflexivity].
  rewrite Hrun. cbn [snd].
  assert (Happ : forall t1 t2, tracebacks (t1 ++ t2) = tracebacks t1 ++ tracebacks t2).
  { intros t1 t2. induction t1 as [|e t1 IH]; [reflexivity|].
    destruct e; simpl; rewrite ?IH; reflexivity. }
  rewrite Happ, Htb. reflexivity.
Qed.

Lemma non_object_body_escapes_witness :
  tracebacks (snd (run world_array_body)) = [TypeError] /\
  stderr world_array_body = [] /\
  stdout world_array_body = [] /\
  exit_status world_array_body = 1.
Proof.
  apply (non_object_body_escapes world_array_body
           (request_of (ustr "abc") (ustr "sk-test") (ustr "gpt-4.1-mini") 0%float)
           (mkResponse 200 (ustr "[]") (JsonValue (VList []))) (VList [])).
  - left. reflexivity.
  - reflexivity.
  - reflexivity.
  - reflexivity.
  - discriminate.
Defined.

(** X12. A response of the expected structure whose ["content"] is not a
    [str] ([null], a number, a list, an object): [.strip()] raises
    [AttributeError], which no [except] clause of [main] matches.  The
    program prints nothing on either stream; the interpreter reports the
    exception and the exit status is 1. *)
Theorem non_string_content_escapes (w : World) (req : Request) (r : Response)
    (d ch m : gmap str value) (rest : list value) (v : value) :
  In req (posts (snd (run w))) ->
  network w req = PostReturns r ->
  is_error_status (status_code r) = false ->
  json_result r = JsonValue (VDict d) ->
  d !! ustr "choices" = Some (VList (VDict ch :: rest)) ->
  ch !! ustr "message" = Some (VDict m) ->
  m !! ustr "content" = Some v ->
  (forall c, v <> VStr c) ->
  tracebacks (snd (run w)) = [AttributeError] /\
  stderr w = [] /\
  stdout w = [] /\
  exit_status w = 1.
Proof.
  intros Hin Hn He Hj Hd Hch Hm Hv.
  destruct (run_posts_inv w _ Hin)
    as (o & key & res & Ha & Hr & Hk & Hkey & Hreq & Hexit & Hres & Hrun).
  destruct (prelude_silent o Stdout) as (Hout & _).
  destruct (prelude_silent o Stderr) as (Herr & _).
  assert (Htb : tracebacks (prelude o) = []).
  { unfold prelude. destruct (truthy_opt (opt_text o)); reflexivity. }
  rewrite Hreq in Hn.
  assert (Hval : res = Exc AttributeError).
  { pose proof (Hres (init w)) as Hc.
    unfold call_openai, requests_post, raise_for_status, json, subscript,
      method_strip, raise in Hc.
    unfold mbind, M_bind, mret, M_ret in Hc.
    match type of Hn with network w ?q = _ => fold q in Hc end.
    rewrite Hn, He, Hj, Hd, index_0_cons, Hch, Hm in Hc.
    destruct v; try (injection Hc as <- _; reflexivity).
    destruct (Hv s eq_refl). }
  subst res.
  split; [|repeat split; known_run Hrun; rewrite ?Hout, ?Herr; reflexivity].
  rewrite Hrun. cbn [snd].
  assert (Happ : forall t1 t2, tracebacks (t1 ++ t2) = tracebacks t1 ++ tracebacks t2).
  { intros t1 t2. induction t1 as [|e t1 IH]; [reflexivity|].
    destruct e; simpl; rewrite ?IH; reflexivity. }
  rewrite Happ, Htb. reflexivity.
Qed.

Lemma non_string_content_escapes_witness :
  tracebacks (snd (run world_null_content)) = [AttributeError] /\
  stderr world_null_content = [] /\
  stdout world_null_content = [] /\
  exit_status world_null_content = 1.
Proof.
  apply (non_string_content_escapes world_null_content
           (request_of (ustr "abc") (ustr "sk-test") (ustr "gpt-4.1-mini") 0%float)
           (completion VNone)
           {[ ustr "choices" :=
               VList [VDict {[ ustr "message" := VDict {[ ustr "content" := VNone ]} ]}] ]}
           {[ ustr "message" := VDict {[ ustr "content" := VNone ]} ]}
           {[ ustr "content" := VNone ]} [] VNone).
  - left. reflexivity.
  - reflexivity.
  - reflexivity.
  - reflexivity.
  - reflexivity.
  - reflexivity.
  - reflexivity.
  - discriminate.
Defined.

(** X13. Every run ends with exactly one report, and it is the last event of
    the trace: one write to standard output or to standard error, or one
    traceback of the interpreter. *)
Theorem exactly_one_report (w : World) :
  reports (snd (run w)) = 1%nat /\
  exists (t : list event) (e : event),
    snd (run w) = t ++ [e] /\ reports t = O /\ reports [e] = 1%nat.
Proof.
  assert (Hp : forall o, reports (prelude o) = O).
  { intros o. unfold prelude. destruct (truthy_opt (opt_text o)); reflexivity. }
  destruct (argv w) as [o|h|u] eqn:Ha.
  - destruct (run_options_cases w o Ha)
      as [(_ & Hrun)|[(_ & _ & Hrun)|(key & res & _ & _ & _ & Hexit & _ & Hrun)]];
      rewrite Hrun; cbn [snd].
    + split; [rewrite reports_app, Hp; reflexivity|].
      eexists _, _. split; [reflexivity|]. split; [apply Hp|reflexivity].
    + split; [rewrite reports_app, Hp; reflexivity|].
      exists (prelude o ++ [Getenv OPENAI_API_KEY]), (Write Stderr (MSG_NO_KEY ++ [10%N])).
      split; [rewrite <- app_assoc; reflexivity|].
      split; [rewrite reports_app, Hp; reflexivity|reflexivity].
    + assert (Hone : exists e, report w res = [e] /\ reports [e] = 1%nat).
      { destruct res as [c|e'].
        - simpl. destruct (forallb (stdout_encodable w) c);
            eexists; split; reflexivity.
        - destruct e' as [code| | | | | | | |];
            try (eexists; split; reflexivity).
          destruct (Hexit code eq_refl). }
      destruct Hone as (e & -> & He).
      split; [rewrite !reports_app, Hp; exact He|].
      eexists (prelude o ++ [Getenv OPENAI_API_KEY; Post _]), e.
      split; [rewrite <- app_assoc; reflexivity|].
      split; [rewrite reports_app, Hp; reflexivity|exact He].
  - rewrite (run_help w h Ha). cbn [snd]. split; [reflexivity|].
    exists [Getenv (ustr "OPENAI_MODEL")], (Write Stdout h). repeat split.
  - rewrite (run_usage w u Ha). cbn [snd]. split; [reflexivity|].
    exists [Getenv (ustr "OPENAI_MODEL")], (Write Stderr u). repeat split.
Qed.

(** X14. A completion made only of whitespace (or empty) is not an error:
    the stripped text is empty, the run prints an empty line on standard
    output, nothing on standard error, and exits with status 0. *)
Theorem blank_completion_prints_empty_line (w : World) (req : Request)
    (r : Response) (d ch m : gmap str value) (rest : list value) (content : str) :
  In req (posts (snd (run w))) ->
  network w req = PostReturns r ->
  is_error_status (status_code r) = false ->
  json_result r = JsonValue (VDict d) ->
  d !! ustr "choices" = Some (VList (VDict ch :: rest)) ->
  ch !! ustr "message" = Some (VDict m) ->
  m !! ustr "content" = Some (VStr content) ->
  all_space content ->
  stdout w = [10%N] /\
  stderr w = [] /\
  exit_status w = 0.
Proof.
  intros Hin Hn He Hj Hd Hch Hm Hblank.
  destruct (run_posts_inv w _ Hin)
    as (o & key & res & Ha & Hr & Hk & Hkey & Hreq & Hexit & Hres & Hrun).
  destruct (prelude_silent o Stdout) as (Hout & _).
  destruct (prelude_silent o Stderr) as (Herr & _).
  rewrite Hreq in Hn.
  assert (Hval : res = Val []).
  { pose proof (call_openai_success _ _ _ _ w (init w) r d ch m rest content
                  Hn He Hj Hd Hch Hm) as Hc.
    rewrite Hres in Hc. injection Hc as ->.
    f_equal. apply strip_nil_iff. exact Hblank. }
  subst res.
  repeat split; known_run Hrun; rewrite ?Hout, ?Herr; reflexivity.
Qed.

Lemma blank_completion_prints_empty_line_witness :
  stdout world_blank_completion = [10%N] /\
  stderr world_blank_completion = [] /\
  exit_status world_blank_completion = 0.
Proof.
  apply (blank_completion_prints_empty_line world_blank_completion
           (request_of (ustr "abc") (ustr "sk-test") (ustr "gpt-4.1-mini") 0%float)
           (completion (VStr [32%N; 10%N]))
           {[ ustr "choices" :=
               VList [VDict {[ ustr "message" :=
                 VDict {[ ustr "content" := VStr [32%N; 10%N] ]} ]}] ]}
           {[ ustr "message" := VDict {[ ustr "content" := VStr [32%N; 10%N] ]} ]}
           {[ ustr "content" := VStr [32%N; 10%N] ]} [] [32%N; 10%N]).
  - left. reflexivity.
  - reflexivity.
  - reflexivity.
  - reflexivity.
  - reflexivity.
  - reflexivity.
  - reflexivity.
  - repeat constructor.
Defined.

Lemma tracebacks_app (t1 t2 : list event) :
  tracebacks (t1 ++ t2) = tracebacks t1 ++ tracebacks t2.
Proof.
  induction t1 as [|e t1 IH]; [reflexivity|].
  destruct e; simpl; rewrite ?IH; reflexivity.
Qed.

(** X15. When the client returns a text that standard output cannot encode,
    [print(corrected)], which is outside the [try], raises
    [UnicodeEncodeError]: nothing reaches standard output, the program
    writes nothing to standard error, the interpreter reports the uncaught
    exception and the exit status is 1. *)
Theorem unencodable_text_escapes (w : World) (corrected : str) :
  client_returned w corrected ->
  forallb (stdout_encodable w) corrected = false ->
  tracebacks (snd (run w)) = [UnicodeEncodeError] /\
  stdout w = [] /\
  stderr w = [] /\
  exit_status w = 1.
Proof.
  intros (text & key & model & temperature & s & s' & Hin & Hcall) Henc.
  destruct (run_posts_inv w _ Hin)
    as (o & key0 & res & Ha & Hr & Hk & Hkey & Hreq & Hexit & Hres & Hrun).
  assert (Hval : res = Val corrected).
  { pose proof (call_openai_determined _ _ _ _ _ _ _ _ w s s Hreq) as Hd'.
    rewrite Hcall, Hres in Hd'. simpl in Hd'. congruence. }
  subst res.
  unfold status_of, report in Hrun. rewrite Henc in Hrun.
  destruct (prelude_silent o Stdout) as (Hout & _).
  destruct (prelude_silent o Stderr) as (Herr & _).
  assert (Htb : tracebacks (prelude o) = []).
  { unfold prelude. destruct (truthy_opt (opt_text o)); reflexivity. }
  split; [|repeat split; known_run Hrun; rewrite ?Hout, ?Herr; reflexivity].
  rewrite Hrun. cbn [snd]. rewrite tracebacks_app, Htb. reflexivity.
Qed.

Lemma unencodable_text_escapes_witness :
  tracebacks (snd (run world_surrogate)) = [UnicodeEncodeError] /\
  stdout world_surrogate = [] /\
  stderr world_surrogate = [] /\
  exit_status world_surrogate = 1.
Proof.
  apply (unencodable_text_escapes world_surrogate [55296%N]).
  - exists (ustr "abc"), (ustr "sk-test"), (ustr "gpt-4.1-mini"), 0%float.
    exists (init world_surrogate).
    eexists. split.
    + left. reflexivity.
    + reflexivity.
  - reflexivity.
Defined.
